(** * parser_qm9.py: the QM9 record parser, embedded and verified

    The development follows src/parser_qm9.py statement by statement.
    Python objects are modelled as follows.

    - [str]: a Rocq [string] whose characters are the code points 0..255.
    - [int]: [Z].  [float]: the binary64 numbers of [PrimFloat].
    - [list]: [list], indexed with stdpp's lookup; an index out of range
      raises [IndexError], which is written out.
    - [dict]: [gmap string value].
    - an exception: its class and the source line of the statement that
      raises it ([exn]); a computation that may raise returns [result].

    The builtins [int] and [float], numpy's conversion of a string to
    float64, ase's table [atomic_numbers] and the file system are not part
    of the repository: the parser is defined in a Section over them, so that
    every theorem holds whatever they do.  Module [Builtins] gives an
    executable instance on which the examples are evaluated. *)

From Stdlib Require Import ZArith String Ascii.
From Stdlib Require Import Floats.PrimFloat Floats.FloatOps Floats.SpecFloat.
From stdpp Require Import gmap strings list fin_maps pretty.

Local Open Scope string_scope.
Local Open Scope list_scope.
Local Open Scope Z_scope.

(** ** Exceptions and results *)

Inductive exn_class : Set :=
  | IndexError | ValueError | KeyError | AttributeError | OSError.

Record exn : Set := Raise { exn_cls : exn_class; exn_line : nat }.

Inductive result (A : Type) : Type :=
  | Ok (a : A)
  | Err (e : exn).
Arguments Ok {A} a.
Arguments Err {A} e.

#[global] Instance result_ret : MRet result := λ A a, Ok a.
#[global] Instance result_bind : MBind result := λ A B f m,
  match m with Ok a => f a | Err e => Err e end.
#[global] Instance result_fmap : FMap result := λ A B f m,
  match m with Ok a => Ok (f a) | Err e => Err e end.

Definition is_Ok {A} (r : result A) : Prop := ∃ a, r = Ok a.
Definition is_Err {A} (r : result A) : Prop := ∃ e, r = Err e.

(** [raise_if_none cls ln o]: the statement at line [ln] raises [cls] when
    the library call has no result. *)
Definition raise_if_none {A} (cls : exn_class) (ln : nat) (o : option A) : result A :=
  match o with Some a => Ok a | None => Err (Raise cls ln) end.

(** [l[i]] for [0 <= i], evaluated at line [ln]. *)
Definition getitem {A} (ln : nat) (l : list A) (i : nat) : result A :=
  raise_if_none IndexError ln (l !! i).

(** [for x in l: s = f x s], stopping at the first exception. *)
Fixpoint foldM {A S} (f : A → S → result S) (l : list A) (s : S) : result S :=
  match l with
  | [] => Ok s
  | a :: l' => s' ← f a s; foldM f l' s'
  end.

(** [[f x for x in l]], stopping at the first exception. *)
Fixpoint mapR {A B} (f : A → result B) (l : list A) : result (list B) :=
  match l with
  | [] => Ok []
  | a :: l' => b ← f a; bs ← mapR f l'; Ok (b :: bs)
  end.

(** [range(start, stop)] for [0 <= start]. *)
Definition range (start stop : Z) : list nat :=
  seq (Z.to_nat start) (Z.to_nat (stop - start)).

(** ** Python values stored in the property dictionary *)

Inductive value : Set :=
  | Str (s : string)
  | Float (x : float).

(** ** [str] methods *)

(** [str.isspace] on one character: the white space of the code points
    0..255 is TAB..CR, FS..US, SPACE, NEL (0x85) and NBSP (0xA0). *)
Definition isspace (c : ascii) : bool :=
  let n := N_of_ascii c in
  (((9 <=? n) && (n <=? 13)) || ((28 <=? n) && (n <=? 32))
   || (n =? 133) || (n =? 160))%N.

Definition flush (word : string) : list string :=
  match word with EmptyString => [] | _ => [String.rev word] end.

(** [word] holds the characters of the current token, last one first. *)
Fixpoint split_go (word : string) (s : string) : list string :=
  match s with
  | EmptyString => flush word
  | String c s' =>
      if isspace c then flush word ++ split_go EmptyString s'
      else split_go (String c word) s'
  end.

(** [s.split()]: the maximal runs of characters that are not white space. *)
Definition split (s : string) : list string := split_go EmptyString s.

Fixpoint lstrip (s : string) : string :=
  match s with
  | EmptyString => EmptyString
  | String c s' => if isspace c then lstrip s' else s
  end.

Definition rstrip (s : string) : string := String.rev (lstrip (String.rev s)).

(** [s.strip()] *)
Definition strip (s : string) : string := rstrip (lstrip s).

Definition TAB : ascii := ascii_of_N 9.
Definition SPACE : ascii := ascii_of_N 32.

(** [s.replace("\t", " ")] *)
Fixpoint replace_tab (s : string) : string :=
  match s with
  | EmptyString => EmptyString
  | String c s' => String (if Ascii.eqb c TAB then SPACE else c) (replace_tab s')
  end.

(** [l[a:b]] for [0 <= a <= b]. *)
Definition slice {A} (a b : nat) (l : list A) : list A := take (b - a) (drop a l).

(** ** ase.Atoms, as far as the parser uses it *)

(** The arrays "numbers", "positions" and "charges" of an [Atoms] object
    and its [info] dictionary. *)
Record Atoms : Set := mkAtoms {
  numbers : list nat;
  arr_positions : list (float * float * float);
  info : gmap string value;
  arr_charges : option (list float)
}.

(** ** An executable instance of the library functions

    Decimal literals as [int] and [float] read them: an optional sign, digits
    that single underscores may separate, and for [float] an optional
    fraction and exponent, or [inf], [infinity], [nan] in any case.  The
    value of a float literal is the binary64 number nearest to it (ties to
    even), computed exactly on integers. *)
Module Builtins.

Definition digit (c : ascii) : option Z :=
  let n := Z.of_N (N_of_ascii c) in
  if (48 <=? n) && (n <=? 57) then Some (n - 48) else None.

Definition is_underscore (c : ascii) : bool := Ascii.eqb c "_".

(** [digitpart ::= digit (["_"] digit)*]: the value read so far, the number
    of digits read, and the rest of the string. *)
Fixpoint digitpart_go (acc : Z) (cnt : nat) (s : string) : Z * nat * string :=
  match s with
  | EmptyString => (acc, cnt, s)
  | String c s' =>
      match digit c with
      | Some d => digitpart_go (10 * acc + d) (S cnt) s'
      | None =>
          match cnt, s' with
          | S _, String c' s'' =>
              match is_underscore c, digit c' with
              | true, Some d => digitpart_go (10 * acc + d) (S cnt) s''
              | _, _ => (acc, cnt, s)
              end
          | _, _ => (acc, cnt, s)
          end
      end
  end.

Definition digitpart (s : string) : Z * nat * string := digitpart_go 0 0%nat s.

(** An optional sign: [true] for ["-"]. *)
Definition sign (s : string) : bool * string :=
  match s with
  | String "-" s' => (true, s')
  | String "+" s' => (false, s')
  | _ => (false, s)
  end.

Definition int_of_str (s : string) : option Z :=
  let '(neg, s1) := sign (strip s) in
  match digitpart s1 with
  | (n, S _, EmptyString) => Some (if neg then - n else n)
  | _ => None
  end.

Definition lower (c : ascii) : ascii :=
  let n := N_of_ascii c in
  if ((65 <=? n) && (n <=? 90))%N then ascii_of_N (n + 32) else c.

Fixpoint lowercase (s : string) : string :=
  match s with
  | EmptyString => EmptyString
  | String c s' => String (lower c) (lowercase s')
  end.

Definition prec : Z := 53.
Definition emax : Z := 1024.

(** The binary64 number nearest to [m * 10^e], for [0 <= m]. *)
Definition nearest (neg : bool) (m e : Z) : float :=
  match m with
  | Zpos p =>
      if 0 <=? e then SF2Prim (binary_normalize prec emax (if neg then - (m * 10 ^ e) else m * 10 ^ e) 0 false)
      else
        match 10 ^ (- e) with
        | Zpos q => SF2Prim (SFdiv prec emax (S754_finite neg p 0) (S754_finite false q 0))
        | _ => nan
        end
  | _ => if neg then (-0)%float else 0%float
  end.

(** [exponent ::= ("e" | "E") ["+" | "-"] digitpart]; no exponent is 0. *)
Definition exponent (s : string) : option Z :=
  match s with
  | EmptyString => Some 0
  | String c s' =>
      if Ascii.eqb (lower c) "e" then
        let '(neg, s1) := sign s' in
        match digitpart s1 with
        | (n, S _, EmptyString) => Some (if neg then - n else n)
        | _ => None
        end
      else None
  end.

Definition float_of_str (s : string) : option float :=
  let '(neg, s1) := sign (strip s) in
  let special := lowercase s1 in
  if bool_decide (special = "inf") || bool_decide (special = "infinity") then
    Some (if neg then neg_infinity else infinity)
  else if bool_decide (special = "nan") then Some nan
  else
    let '(ip, ni, s2) := digitpart s1 in
    let '(fp, nf, s3) :=
      match s2 with
      | String "." s2' => digitpart s2'
      | _ => (0, 0%nat, s2)
      end in
    match ni, nf, s2 with
    | O, O, _ => None
    | O, _, String "." (String "_" _) => None
    | _, _, _ =>
        match exponent s3 with
        | Some e => Some (nearest neg (ip * 10 ^ Z.of_nat nf + fp) (e - Z.of_nat nf))
        | None => None
        end
    end.

Definition py_int (v : value) : option Z :=
  match v with
  | Str s => int_of_str s
  | Float x =>
      (* truncation towards zero; inf and nan raise *)
      match Prim2SF x with
      | S754_zero _ => Some 0
      | S754_finite neg m e =>
          let n := if 0 <=? e then Zpos m * 2 ^ e else Zpos m / 2 ^ (- e) in
          Some (if neg then - n else n)
      | _ => None
      end
  end.

Definition py_float (v : value) : option float :=
  match v with
  | Str s => float_of_str s
  | Float x => Some x
  end.

Definition np_float64 (s : string) : option float := float_of_str s.

(** ase.data.chemical_symbols: the index of a symbol is its atomic number. *)
Definition chemical_symbols : list string :=
  ["X"; "H"; "He"; "Li"; "Be"; "B"; "C"; "N"; "O"; "F"; "Ne";
   "Na"; "Mg"; "Al"; "Si"; "P"; "S"; "Cl"; "Ar";
   "K"; "Ca"; "Sc"; "Ti"; "V"; "Cr"; "Mn"; "Fe"; "Co"; "Ni"; "Cu"; "Zn";
   "Ga"; "Ge"; "As"; "Se"; "Br"; "Kr";
   "Rb"; "Sr"; "Y"; "Zr"; "Nb"; "Mo"; "Tc"; "Ru"; "Rh"; "Pd"; "Ag"; "Cd";
   "In"; "Sn"; "Sb"; "Te"; "I"; "Xe";
   "Cs"; "Ba"; "La"; "Ce"; "Pr"; "Nd"; "Pm"; "Sm"; "Eu"; "Gd"; "Tb"; "Dy";
   "Ho"; "Er"; "Tm"; "Yb"; "Lu";
   "Hf"; "Ta"; "W"; "Re"; "Os"; "Ir"; "Pt"; "Au"; "Hg"; "Tl"; "Pb"; "Bi";
   "Po"; "At"; "Rn";
   "Fr"; "Ra"; "Ac"; "Th"; "Pa"; "U"; "Np"; "Pu"; "Am"; "Cm"; "Bk"; "Cf";
   "Es"; "Fm"; "Md"; "No"; "Lr";
   "Rf"; "Db"; "Sg"; "Bh"; "Hs"; "Mt"; "Ds"; "Rg"; "Cn"; "Nh"; "Fl"; "Mc";
   "Lv"; "Ts"; "Og"].

Fixpoint index_of (s : string) (l : list string) (i : nat) : option nat :=
  match l with
  | [] => None
  | x :: l' => if bool_decide (x = s) then Some i else index_of s l' (S i)
  end.

Definition atomic_numbers (s : string) : option nat := index_of s chemical_symbols 0%nat.

End Builtins.

(** ** The parser *)

(** Line 41. *)
Definition params_keys : list string :=
  ["db"; "id"; "A"; "B"; "C"; "mu"; "alpha"; "homo"; "lumo"; "gap"; "r2";
   "zpve"; "U0"; "U"; "H"; "G"; "Cv"].

(** The list literal of line 57. *)
Definition energy_keys : list string :=
  ["homo"; "lumo"; "gap"; "zpve"; "U0"; "U"; "H"; "G"].

(** The literal [27.2114] of line 58: the binary64 number nearest to it. *)
Definition HARTREE_TO_EV : float := 0x1.b361e4f765fd9p+4%float.

(** [dict(zip(keys, vals))], line 56: [zip] stops at the shorter list and
    a later pair overwrites an earlier one with the same key. *)
Definition dict_zip (keys vals : list string) : gmap string value :=
  foldl (λ d kv, <[kv.1 := Str kv.2]> d) ∅ (zip keys vals).

(** The attributes of an [XYZParser] object after [__init__]. *)
Record XYZParser : Set := mkXYZParser {
  n_atoms : Z;
  params : gmap string value;
  elements : list string;
  positions : list (list string);
  charges : list float;
  atoms : Atoms
}.

(** A [QM9Parser] object: [list_atoms], and the attributes inherited from
    [XYZParser], which exist once a file has been read. *)
Record QM9Parser : Set := mkQM9Parser {
  list_atoms : list Atoms;
  base : option XYZParser
}.

(** What the script does to the outside world. *)
Inductive event : Set :=
  | Makedirs (dir : string)
  | Write (path : string) (a : Atoms)
  | Print (line : string).

Section Parser.

(** The builtin [int] on a [str] or a [float]; [None] when it raises. *)
Variable py_int : value → option Z.
(** The builtin [float]; [None] when it raises. *)
Variable py_float : value → option float.
(** numpy's conversion of a string to float64; [None] when it raises. *)
Variable np_float64 : string → option float.
(** ase.data.atomic_numbers; [None] when the key is missing. *)
Variable atomic_numbers : string → option nat.
(** [open(path, 'r').readlines()]; [None] when the file cannot be read. *)
Variable open_readlines : string → option (list string).
(** The exception of a path that cannot be read: the OSError of [open] at
    line 42, or what [readlines] raises at line 43, an OSError or, for a
    file that does not decode, a UnicodeDecodeError (a ValueError). *)
Variable read_error : string → exn.
(** [os.makedirs] at line 104: the class of the exception it raises, if
    any. *)
Variable makedirs_error : option exn_class.
(** [write(path, atoms)] at line 108, after the events so far: the class
    of the exception it raises, if any (an OSError for a name that is too
    long, for instance). *)
Variable write_error : list event → string → Atoms → option exn_class.

(** *** read_xyz *)

(** The state of the loop of lines 50-54: [lines], [elements],
    [positions], [charges]. *)
Definition loop_state : Type :=
  list string * list string * list (list string) * list string.

(** Lines 51-54, the body of the loop at index [i].  After line 51,
    [lines[i]] is the line with its tabs replaced. *)
Definition atom_line (i : nat) (st : loop_state) : result loop_state :=
  let '(lines, elements, positions, charges) := st in
  l ← getitem 51 lines i;
  let lines := <[i := replace_tab l]> lines in
  l ← getitem 52 lines i;
  e ← getitem 52 (split l) 0;
  l ← getitem 53 lines i;
  let p := slice 1 4 (split l) in
  l ← getitem 54 lines i;
  c ← getitem 54 (split l) 4;
  Ok (lines, elements ++ [e], positions ++ [p], charges ++ [c]).

(** Line 58, the body of the loop for the key [prop]. *)
Definition convert (prop : string) (params : gmap string value) :
    result (gmap string value) :=
  v ← raise_if_none KeyError 58 (params !! prop);
  x ← raise_if_none ValueError 58 (py_float v);
  Ok (<[prop := Float (x * HARTREE_TO_EV)%float]> params).

(** [np.array(charges, dtype="float64")], line 59. *)
Definition np_array_float64 (ln : nat) (l : list string) : result (list float) :=
  mapR (λ s, raise_if_none ValueError ln (np_float64 s)) l.

(** Lines 41-59 once the lines are read. *)
Definition read_lines (lines : list string) :
    result (Z * gmap string value * list string * list (list string) * list float) :=
  l0 ← getitem 45 lines 0;
  n_atoms ← raise_if_none ValueError 45 (py_int (Str (strip l0)));
  l1 ← getitem 46 lines 1;
  let params_values := split l1 in
  '(lines, elements, positions, charges) ←
    foldM atom_line (range 2 (n_atoms + 2)) (lines, [], [], []);
  let params := dict_zip params_keys params_values in
  params ← foldM convert energy_keys params;
  charges ← np_array_float64 59 charges;
  Ok (n_atoms, params, elements, positions, charges).

Definition read_xyz (file_path : string) :
    result (Z * gmap string value * list string * list (list string) * list float) :=
  match open_readlines file_path with
  | Some lines => read_lines lines
  | None => Err (read_error file_path)
  end.

(** *** create_atoms *)

(** ase.symbols.symbols2numbers on a list of strings. *)
Definition symbols2numbers (ln : nat) (symbols : list string) : result (list nat) :=
  mapR (λ s, raise_if_none KeyError ln (atomic_numbers s)) symbols.

(** One row of [np.array(positions, float)] with the shape [(3,)] that
    [Atoms] asks for. *)
Definition position_row (ln : nat) (row : list string) : result (float * float * float) :=
  match row with
  | [x; y; z] =>
      x ← raise_if_none ValueError ln (np_float64 x);
      y ← raise_if_none ValueError ln (np_float64 y);
      z ← raise_if_none ValueError ln (np_float64 z);
      Ok (x, y, z)
  | _ => Err (Raise ValueError ln)
  end.

(** [Atoms(symbols, positions=positions)]: the array of atomic numbers, then
    the n x 3 array of floats, which must be as long. *)
Definition Atoms_init (ln : nat) (symbols : list string) (positions : list (list string)) :
    result Atoms :=
  numbers ← symbols2numbers ln symbols;
  pos ← mapR (position_row ln) positions;
  if bool_decide (length pos = length numbers)
  then Ok (mkAtoms numbers pos ∅ None)
  else Err (Raise ValueError ln).

(** [atoms.set_array("charges", a)]: the array must be as long as the
    others. *)
Definition set_array_charges (ln : nat) (a : Atoms) (charges : list float) : result Atoms :=
  if bool_decide (length charges = length (numbers a))
  then Ok (mkAtoms (numbers a) (arr_positions a) (info a) (Some charges))
  else Err (Raise ValueError ln).

(** Lines 74-77. *)
Definition create_atoms (elements : list string) (positions : list (list string))
    (params : gmap string value) (charges : list float) : result Atoms :=
  atoms ← Atoms_init 74 elements positions;
  let atoms := mkAtoms (numbers atoms) (arr_positions atoms) params (arr_charges atoms) in
  atoms ← set_array_charges 76 atoms charges;
  Ok atoms.

(** *** XYZParser *)

(** Lines 25-26. *)
Definition XYZParser_init (file_path : string) : result XYZParser :=
  '(n_atoms, params, elements, positions, charges) ← read_xyz file_path;
  atoms ← create_atoms elements positions params charges;
  Ok (mkXYZParser n_atoms params elements positions charges atoms).

(** *** QM9Parser *)

(** Lines 85-87, the body of the loop for one path. *)
Definition QM9Parser_step (file_path : string) (self : QM9Parser) : result QM9Parser :=
  x ← XYZParser_init file_path;
  atoms ← create_atoms (elements x) (positions x) (params x) (charges x);
  let x := mkXYZParser (n_atoms x) (params x) (elements x) (positions x) (charges x) atoms in
  Ok (mkQM9Parser (list_atoms self ++ [atoms]) (Some x)).

(** Lines 81-87. *)
Definition QM9Parser_init (file_paths : list string) : result QM9Parser :=
  foldM QM9Parser_step file_paths (mkQM9Parser [] None).

(** Lines 89-92; [parser.atoms] does not exist when no file was read. *)
Definition process_file (file_path : string) : result Atoms :=
  parser ← QM9Parser_init [file_path];
  x ← raise_if_none AttributeError 92 (base parser);
  Ok (atoms x).

(** *** The script, lines 96-109 *)

Fixpoint zeros (n : nat) : string :=
  match n with O => EmptyString | S n' => String "0" (zeros n') end.

(** [f"{n:06}"]: at least six characters, zeros after the sign. *)
Definition format_06 (n : Z) : string :=
  let digits := pretty (Z.abs n) in
  if n <? 0 then "-" +:+ zeros (5 - String.length digits) +:+ digits
  else zeros (6 - String.length digits) +:+ digits.

(** Lines 107-109 for one molecule: the events so far, and the exception
    that ends the script, if any.  [print] is taken not to raise. *)
Definition write_atoms (a : Atoms) (log : list event) : list event * option exn :=
  match info a !! "id" with
  | None => (log, Some (Raise KeyError 107))
  | Some v =>
      match py_int v with
      | None => (log, Some (Raise ValueError 107))
      | Some atoms_idx =>
          let path := "QM9_parsed/mol_" +:+ format_06 atoms_idx +:+ ".xyz" in
          match write_error log path a with
          | Some cls => (log, Some (Raise cls 108))
          | None =>
              (log ++ [Write path a; Print ("Parsed file " +:+ format_06 atoms_idx)], None)
          end
      end
  end.

Fixpoint write_loop (l : list Atoms) (log : list event) : list event * option exn :=
  match l with
  | [] => (log, None)
  | a :: l' =>
      match write_atoms a log with
      | (log', None) => write_loop l' log'
      | stop => stop
      end
  end.

(** The script on the paths that [glob] returns.  [executor.map] hands the
    results back in the order of the paths and [list] re-raises the first
    exception it meets among them, so the pool is [mapR process_file]. *)
Definition main (xyz_files : list string) (dir_exists : bool) : list event * option exn :=
  match mapR process_file xyz_files with
  | Err e => ([], Some e)
  | Ok list_atoms =>
      if dir_exists then write_loop list_atoms []
      else
        match makedirs_error with
        | Some cls => ([], Some (Raise cls 104))
        | None => write_loop list_atoms [Makedirs "QM9_parsed"]
        end
  end.

(** The output files written by a run. *)
Definition written (run : list event * option exn) : list string :=
  omap (λ ev, match ev with Write path _ => Some path | _ => None end) run.1.

(** *** What the loops compute

    The loop of lines 50-54 reads each atom line once; [atom_row] is what
    it takes from one line and [atom_rows] what it takes from a record. *)

Definition row : Type := string * list string * string.

Definition atom_row (l : string) : result row :=
  let tokens := split (replace_tab l) in
  e ← getitem 52 tokens 0;
  c ← getitem 54 tokens 4;
  Ok (e, slice 1 4 tokens, c).

Definition atom_rows (lines : list string) (a n : nat) : result (list row) :=
  mapR (λ i, l ← getitem 51 lines i; atom_row l) (seq a n).

(** The statements that read the atom rows: the loop of lines 50-54, the
    conversion of the charges at line 59 and the construction of the
    molecule at lines 74 and 76. *)
Definition atom_row_lines : list nat := [51; 52; 53; 54; 59; 74; 76]%nat.

(** The defects of the atom rows of a record with atom count [n]: an atom
    line is missing, an atom line has fewer than five tokens, or one of the
    tokens 1-4 of an atom line is not numeric. *)
Definition line_missing (lines : list string) (n : Z) : Prop :=
  ∃ i, (i < Z.to_nat n)%nat ∧ lines !! (2 + i)%nat = None.

Definition token_missing (lines : list string) (n : Z) : Prop :=
  ∃ i l, (i < Z.to_nat n)%nat ∧ lines !! (2 + i)%nat = Some l
         ∧ (length (split (replace_tab l)) < 5)%nat.

Definition token_not_numeric (lines : list string) (n : Z) : Prop :=
  ∃ i l j t, (i < Z.to_nat n)%nat ∧ lines !! (2 + i)%nat = Some l
             ∧ (1 ≤ j ≤ 4)%nat ∧ split (replace_tab l) !! j = Some t
             ∧ np_float64 t = None.

(** ** Properties *)

(** Reduce the binds of [result] and nothing else. *)
Tactic Notation "rsimpl" :=
  cbn [mbind result_bind mret result_ret fmap result_fmap raise_if_none].
Tactic Notation "rsimpl" "in" hyp(H) :=
  cbn [mbind result_bind mret result_ret fmap result_fmap raise_if_none] in H.

(** *** Results *)

Lemma bind_Ok {A B} (m : result A) (f : A → result B) (b : B) :
  m ≫= f = Ok b ↔ ∃ a, m = Ok a ∧ f a = Ok b.
Proof.
  destruct m as [a|e]; simpl; split.
  - intros H. by exists a.
  - intros (a' & ? & ?). by simplify_eq.
  - intros H. discriminate H.
  - intros (a' & ? & _). by simplify_eq.
Qed.

Lemma bind_Err {A B} (m : result A) (f : A → result B) (e : exn) :
  m ≫= f = Err e ↔ m = Err e ∨ ∃ a, m = Ok a ∧ f a = Err e.
Proof.
  destruct m as [a|e']; simpl; split.
  - intros H. right. by exists a.
  - intros [?|(a' & ? & ?)]; by simplify_eq.
  - intros ?. left. by simplify_eq.
  - intros [?|(a' & ? & _)]; by simplify_eq.
Qed.

Lemma raise_if_none_Ok {A} cls ln (o : option A) (a : A) :
  raise_if_none cls ln o = Ok a ↔ o = Some a.
Proof. destruct o; simpl; split; congruence. Qed.

Lemma raise_if_none_Err {A} cls ln (o : option A) (e : exn) :
  raise_if_none cls ln o = Err e ↔ o = None ∧ e = Raise cls ln.
Proof.
  destruct o; simpl; split.
  - intros H. discriminate H.
  - intros [H _]. discriminate H.
  - intros H. injection H as <-. done.
  - intros [_ ->]. done.
Qed.

Lemma mapR_Ok {A B} (f : A → result B) (l : list A) (bs : list B) :
  mapR f l = Ok bs ↔ Forall2 (λ a b, f a = Ok b) l bs.
Proof.
  revert bs. induction l as [|a l IH]; intros bs; simpl.
  - split; [intros [= <-]; constructor | intros H%Forall2_nil_inv_l; by subst].
  - rewrite bind_Ok. split.
    + intros (b & Hb & H). apply bind_Ok in H as (bs' & Hbs & [= <-]).
      constructor; [done | by apply IH].
    + intros H. apply Forall2_cons_inv_l in H as (b & bs' & Hb & Hbs & ->).
      exists b. split; [done|]. apply bind_Ok. exists bs'. split; [by apply IH | done].
Qed.

Lemma mapR_Err {A B} (f : A → result B) (l : list A) (e : exn) :
  mapR f l = Err e → ∃ i a, l !! i = Some a ∧ f a = Err e.
Proof.
  induction l as [|a l IH]; simpl; [done|].
  rewrite bind_Err. intros [H|(b & Hb & H)].
  - by exists 0%nat, a.
  - apply bind_Err in H as [H|(bs & _ & [=])].
    destruct (IH H) as (i & a' & Hi & Ha'). by exists (S i), a'.
Qed.

Lemma mapR_is_Err {A B} (f : A → result B) (l : list A) (i : nat) (a : A) :
  l !! i = Some a → is_Err (f a) → is_Err (mapR f l).
Proof.
  revert i. induction l as [|a' l IH]; intros [|i] Hi Ha; simplify_eq/=.
  - destruct Ha as [e ->]. by exists e.
  - destruct (f a') as [b|e]; simpl; [|by exists e].
    destruct (IH _ Hi Ha) as [e ->]. by exists e.
Qed.

Lemma mapR_ext {A B} (f g : A → result B) (l : list A) :
  (∀ i a, l !! i = Some a → f a = g a) → mapR f l = mapR g l.
Proof.
  induction l as [|a l IH]; intros H; simpl; [done|].
  rewrite (H 0%nat a eq_refl), IH; [done|]. intros i. apply (H (S i)).
Qed.

(** *** The loop over the atom lines *)

Lemma atom_line_eq (i : nat) (lines es : list string) (ps : list (list string))
    (cs : list string) :
  atom_line i (lines, es, ps, cs) =
    l ← getitem 51 lines i;
    r ← atom_row l;
    Ok (<[i := replace_tab l]> lines, es ++ [r.1.1], ps ++ [r.1.2], cs ++ [r.2]).
Proof.
  unfold atom_line, atom_row, getitem.
  destruct (lines !! i) as [l|] eqn:Hl; simpl; [|done].
  rewrite list_lookup_insert_eq by (by eapply lookup_lt_Some). simpl.
  destruct (split (replace_tab l) !! 0%nat) as [e|]; simpl; [|done].
  by destruct (split (replace_tab l) !! 4%nat) as [c|].
Qed.

Lemma atom_loop {B} (K : list string → list (list string) → list string → result B) :
  ∀ (n a : nat) (lines0 lines es : list string) ps cs,
    (∀ j, (a ≤ j)%nat → lines !! j = lines0 !! j) →
    foldM atom_line (seq a n) (lines, es, ps, cs) ≫= (λ '(_, es', ps', cs'), K es' ps' cs')
    = rows ← atom_rows lines0 a n;
      K (es ++ rows.*1.*1) (ps ++ rows.*1.*2) (cs ++ rows.*2).
Proof.
  unfold atom_rows, getitem.
  induction n as [|n IH]; intros a lines0 lines es ps cs Hlines; cbn [seq foldM mapR].
  - simpl. by rewrite !app_nil_r.
  - rewrite atom_line_eq. unfold getitem. rewrite Hlines by lia.
    destruct (lines0 !! a) as [l|]; simpl; [|done].
    destruct (atom_row l) as [[[e p] c]|]; simpl; [|done].
    rewrite (IH (S a) lines0).
    + destruct (mapR _ (seq (S a) n)) as [rows|]; simpl; [|done].
      by rewrite <- !app_assoc.
    + intros j Hj. rewrite list_lookup_insert_ne by lia. apply Hlines. lia.
Qed.

Lemma range_2 (n : Z) : range 2 (n + 2) = seq 2 (Z.to_nat n).
Proof. unfold range. by rewrite Z.add_simpl_r. Qed.

(** [read_lines] without the assignments to [lines[i]]. *)
Lemma read_lines_eq (lines : list string) :
  read_lines lines =
    l0 ← getitem 45 lines 0;
    n ← raise_if_none ValueError 45 (py_int (Str (strip l0)));
    l1 ← getitem 46 lines 1;
    rows ← atom_rows lines 2 (Z.to_nat n);
    params ← foldM convert energy_keys (dict_zip params_keys (split l1));
    charges ← np_array_float64 59 (rows.*2);
    Ok (n, params, rows.*1.*1, rows.*1.*2, charges).
Proof.
  unfold read_lines.
  destruct (getitem 45 lines 0) as [l0|]; simpl; [|done].
  destruct (raise_if_none _ _ _) as [n|]; simpl; [|done].
  destruct (getitem 46 lines 1) as [l1|]; simpl; [|done].
  rewrite range_2.
  by rewrite (atom_loop (λ es ps cs,
    params ← foldM convert energy_keys (dict_zip params_keys (split l1));
    charges ← np_array_float64 59 cs;
    Ok (n, params, es, ps, charges)) _ 2%nat lines).
Qed.

(** *** The property dictionary *)

Lemma params_keys_NoDup : NoDup params_keys.
Proof. apply (bool_decide_unpack _). by vm_compute. Qed.

Lemma energy_keys_NoDup : NoDup energy_keys.
Proof. apply (bool_decide_unpack _). by vm_compute. Qed.

Lemma dict_zip_go_notin (keys : list string) :
  ∀ (vals : list string) (d : gmap string value) (k : string),
    k ∉ keys →
    foldl (λ d kv, <[kv.1 := Str kv.2]> d) d (zip keys vals) !! k = d !! k.
Proof.
  induction keys as [|k0 keys IH]; intros [|v vals] d k Hk; simpl; try done.
  apply not_elem_of_cons in Hk as [Hne Hk].
  rewrite IH by done. by apply lookup_insert_ne.
Qed.

Lemma dict_zip_go_lookup (keys : list string) :
  ∀ (vals : list string) (d : gmap string value) (i : nat) (k : string),
    NoDup keys → keys !! i = Some k →
    foldl (λ d kv, <[kv.1 := Str kv.2]> d) d (zip keys vals) !! k
    = match vals !! i with Some v => Some (Str v) | None => d !! k end.
Proof.
  induction keys as [|k0 keys IH]; intros vals d i k Hnd Hi; [done|].
  apply NoDup_cons in Hnd as [Hk0 Hnd].
  destruct vals as [|v vals]; [by destruct i|]. simpl.
  destruct i as [|i]; simplify_eq/=.
  - rewrite dict_zip_go_notin by done. apply lookup_insert_eq.
  - rewrite (IH _ _ i) by done.
    destruct (vals !! i); [done|]. apply lookup_insert_ne.
    intros ->. apply Hk0. by eapply list_elem_of_lookup_2.
Qed.

Lemma dict_zip_lookup (keys vals : list string) (i : nat) (k : string) :
  NoDup keys → keys !! i = Some k →
  dict_zip keys vals !! k = Str <$> vals !! i.
Proof.
  intros Hnd Hi. unfold dict_zip. rewrite (dict_zip_go_lookup _ _ _ i) by done.
  by destruct (vals !! i).
Qed.

Lemma dict_zip_go_dom (keys : list string) :
  ∀ (vals : list string) (d : gmap string value),
    dom (foldl (λ d kv, <[kv.1 := Str kv.2]> d) d (zip keys vals))
    = dom d ∪ list_to_set (take (length vals) keys).
Proof.
  induction keys as [|k0 keys IH]; intros [|v vals] d; simpl;
    rewrite ?take_nil; simpl; rewrite ?(right_id_L ∅ (∪)); try done.
  rewrite IH, dom_insert_L. by rewrite (comm_L (∪) {[k0]}), <- (assoc_L (∪)).
Qed.

Lemma dict_zip_dom (keys vals : list string) :
  dom (dict_zip keys vals) = list_to_set (take (length vals) keys).
Proof. unfold dict_zip. by rewrite dict_zip_go_dom, dom_empty_L, (left_id_L ∅ (∪)). Qed.

(** *** The conversion of the energies *)

Lemma convert_Ok (prop : string) (m m' : gmap string value) :
  convert prop m = Ok m' ↔
  ∃ v x, m !! prop = Some v ∧ py_float v = Some x
         ∧ m' = <[prop := Float (x * HARTREE_TO_EV)%float]> m.
Proof.
  unfold convert. destruct (m !! prop) as [v|]; simpl.
  - destruct (py_float v) as [x|] eqn:Hx; simpl; split.
    + intros ?. exists v, x. by simplify_eq.
    + intros (? & ? & ? & ? & ?). by simplify_eq.
    + done.
    + intros (? & ? & ? & ? & ?). by simplify_eq.
  - split; [done|]. intros (? & ? & ? & ?). by simplify_eq.
Qed.

Lemma convert_Err (prop : string) (m : gmap string value) (e : exn) :
  convert prop m = Err e ↔
  (m !! prop = None ∧ e = Raise KeyError 58)
  ∨ (∃ v, m !! prop = Some v ∧ py_float v = None ∧ e = Raise ValueError 58).
Proof.
  unfold convert. destruct (m !! prop) as [v|]; simpl.
  - destruct (py_float v) as [x|] eqn:Hx; simpl; split.
    + done.
    + intros [[? ?]|(? & ? & ? & ?)]; by simplify_eq.
    + intros ?. right. exists v. by simplify_eq.
    + intros [[? ?]|(? & ? & ? & ?)]; by simplify_eq.
  - split.
    + intros ?. left. by simplify_eq.
    + intros [[? ?]|(? & ? & ?)]; by simplify_eq.
Qed.

Lemma convert_loop_Ok (ks : list string) :
  ∀ (m m' : gmap string value),
    NoDup ks → foldM convert ks m = Ok m' →
    (∀ k, k ∈ ks → ∃ v x, m !! k = Some v ∧ py_float v = Some x
                          ∧ m' !! k = Some (Float (x * HARTREE_TO_EV)%float))
    ∧ (∀ k, k ∉ ks → m' !! k = m !! k)
    ∧ dom m' = dom m.
Proof.
  induction ks as [|k0 ks IH]; intros m m' Hnd H; simpl in H.
  - simplify_eq. split_and!; [by intros k ?%elem_of_nil | done | done].
  - apply NoDup_cons in Hnd as [Hk0 Hnd].
    apply bind_Ok in H as (m1 & H1 & H).
    apply convert_Ok in H1 as (v & x & Hv & Hx & ->).
    destruct (IH _ _ Hnd H) as (Hin & Hout & Hdom). split_and!.
    + intros k [->|Hk]%elem_of_cons.
      * exists v, x. split_and!; [done..|].
        rewrite Hout by done. apply lookup_insert_eq.
      * destruct (Hin k Hk) as (v' & x' & Hv' & Hx' & Hm').
        exists v', x'. split_and!; [|done..].
        rewrite lookup_insert_ne in Hv'; [done|]. by intros ->.
    + intros k [Hne Hk]%not_elem_of_cons.
      rewrite Hout by done. by apply lookup_insert_ne.
    + rewrite Hdom. by apply dom_insert_lookup_L.
Qed.

Lemma convert_loop_Err (ks : list string) :
  ∀ (m : gmap string value) (e : exn),
    foldM convert ks m = Err e →
    e = Raise KeyError 58 ∨ e = Raise ValueError 58.
Proof.
  induction ks as [|k0 ks IH]; intros m e H; simpl in H; [done|].
  apply bind_Err in H as [H|(m1 & _ & H)]; [|by eapply IH].
  apply convert_Err in H as [[_ ->]|(? & _ & _ & ->)]; auto.
Qed.

(** When every token that is present is numeric, the failure is the
    [KeyError] of the first missing key. *)
Lemma convert_loop_KeyError (ks : list string) :
  ∀ (m : gmap string value) (k : string),
    NoDup ks → k ∈ ks → m !! k = None →
    (∀ k' v, k' ∈ ks → m !! k' = Some v → is_Some (py_float v)) →
    foldM convert ks m = Err (Raise KeyError 58).
Proof.
  induction ks as [|k0 ks IH]; intros m k Hnd Hk Hm Hnum; [by apply elem_of_nil in Hk|].
  apply NoDup_cons in Hnd as [Hk0 Hnd]. cbn [foldM].
  destruct (convert k0 m) as [m1|e] eqn:H1; simpl.
  - apply convert_Ok in H1 as (v & x & Hv & Hx & ->).
    apply elem_of_cons in Hk as [->|Hk]; [congruence|].
    apply (IH _ k); [done..| |].
    + rewrite lookup_insert_ne; [done|]. intros ->. congruence.
    + intros k' v' Hk' Hv'. apply (Hnum k' v'); [by right|].
      rewrite lookup_insert_ne in Hv'; [done|]. by intros ->.
  - apply convert_Err in H1 as [[_ ->]|(v & Hv & Hx & _)]; [done|].
    destruct (Hnum k0 v) as [x Hx']; [by left | done | congruence].
Qed.

(** *** One atom line *)

Lemma atom_row_tokens (l : string) :
  atom_row l =
    match split (replace_tab l) with
    | e :: tx :: ty :: tz :: c :: _ => Ok (e, [tx; ty; tz], c)
    | [] => Err (Raise IndexError 52)
    | _ => Err (Raise IndexError 54)
    end.
Proof.
  unfold atom_row.
  by destruct (split (replace_tab l)) as [|e [|tx [|ty [|tz [|c rest]]]]].
Qed.


Lemma atom_row_Ok (l : string) (r : row) :
  atom_row l = Ok r ↔
  ∃ e tx ty tz c, take 5 (split (replace_tab l)) = [e; tx; ty; tz; c]
                  ∧ r = (e, [tx; ty; tz], c).
Proof.
  rewrite atom_row_tokens.
  destruct (split (replace_tab l)) as [|e [|tx [|ty [|tz [|c rest]]]]]; simpl;
    (split; [intros ? | intros (? & ? & ? & ? & ? & ? & ?)]); simplify_eq; eauto 10.
Qed.

Lemma atom_row_Err (l : string) (e : exn) :
  atom_row l = Err e ↔
  (length (split (replace_tab l)) < 5)%nat
  ∧ e = Raise IndexError (if bool_decide (split (replace_tab l) = []) then 52 else 54).
Proof.
  rewrite atom_row_tokens.
  destruct (split (replace_tab l)) as [|t0 [|tx [|ty [|tz [|c rest]]]]]; simpl;
    (split; [intros ? | intros [? ?]]); simplify_eq; try done; try (split; [lia | done]).
  lia.
Qed.

(** *** All atom lines *)

Lemma atom_rows_Ok (lines : list string) (a n : nat) (rows : list row) :
  atom_rows lines a n = Ok rows →
  length rows = n
  ∧ ∀ i, (i < n)%nat →
      ∃ l r, lines !! (a + i)%nat = Some l ∧ atom_row l = Ok r ∧ rows !! i = Some r.
Proof.
  unfold atom_rows. intros H%mapR_Ok. split.
  - apply Forall2_length in H. by rewrite length_seq in H.
  - intros i Hi.
    destruct (Forall2_lookup_l _ _ _ i (a + i)%nat H) as (r & Hr & Hrow).
    { by apply lookup_seq_lt. }
    unfold getitem in Hrow. destruct (lines !! (a + i)%nat) as [l|]; [|done].
    by exists l, r.
Qed.

Lemma atom_rows_Err (lines : list string) (a n : nat) (e : exn) :
  atom_rows lines a n = Err e →
  ∃ ln, e = Raise IndexError ln ∧ (ln = 51 ∨ ln = 52 ∨ ln = 54)%nat.
Proof.
  unfold atom_rows. intros (i & j & _ & H)%mapR_Err.
  unfold getitem in H. destruct (lines !! j) as [l|]; simpl in H.
  - apply atom_row_Err in H as [_ ->]. case_bool_decide; eauto.
  - simplify_eq. eauto.
Qed.

Lemma atom_rows_is_Err (lines : list string) (a n i : nat) :
  (i < n)%nat →
  match lines !! (a + i)%nat with
  | Some l => (length (split (replace_tab l)) < 5)%nat
  | None => True
  end →
  is_Err (atom_rows lines a n).
Proof.
  intros Hi H. unfold atom_rows.
  apply (mapR_is_Err _ _ i (a + i)%nat); [by apply lookup_seq_lt|].
  unfold getitem. destruct (lines !! (a + i)%nat) as [l|]; simpl.
  - eexists. apply atom_row_Err. eauto.
  - by eexists.
Qed.

Lemma atom_rows_ext (lines lines' : list string) (a n : nat) :
  (∀ i, (i < n)%nat →
     (atom_row <$> lines !! (a + i)%nat) = (atom_row <$> lines' !! (a + i)%nat)) →
  atom_rows lines a n = atom_rows lines' a n.
Proof.
  intros H. unfold atom_rows. apply mapR_ext. intros i j Hj.
  apply lookup_seq in Hj as [-> Hi]. specialize (H i Hi). unfold getitem.
  destruct (lines !! (a + i)%nat), (lines' !! (a + i)%nat); simpl in *; by simplify_eq.
Qed.

(** *** create_atoms *)

Lemma position_row_Ok (ln : nat) (r : list string) (q : float * float * float) :
  position_row ln r = Ok q ↔
  ∃ tx ty tz, r = [tx; ty; tz]
    ∧ np_float64 tx = Some q.1.1 ∧ np_float64 ty = Some q.1.2 ∧ np_float64 tz = Some q.2.
Proof.
  destruct q as [[x y] z]. split.
  - destruct r as [|tx [|ty [|tz [|]]]]; simpl; try done.
    destruct (np_float64 tx) eqn:Hx, (np_float64 ty) eqn:Hy, (np_float64 tz) eqn:Hz;
      simpl; try done.
    intros ?. simplify_eq. by exists tx, ty, tz.
  - intros (tx & ty & tz & -> & Hx & Hy & Hz). simpl in *. by rewrite Hx, Hy, Hz.
Qed.

Lemma position_row_Err (ln : nat) (r : list string) (e : exn) :
  position_row ln r = Err e → e = Raise ValueError ln.
Proof.
  destruct r as [|tx [|ty [|tz [|]]]]; simpl; try (intros ?; by simplify_eq).
  destruct (np_float64 tx), (np_float64 ty), (np_float64 tz); simpl;
    intros ?; by simplify_eq.
Qed.

Lemma create_atoms_Ok (es : list string) (ps : list (list string))
    (m : gmap string value) (cs : list float) (a : Atoms) :
  create_atoms es ps m cs = Ok a ↔
  ∃ nums pos, symbols2numbers 74 es = Ok nums
    ∧ mapR (position_row 74) ps = Ok pos
    ∧ length pos = length nums ∧ length cs = length nums
    ∧ a = mkAtoms nums pos m (Some cs).
Proof.
  unfold create_atoms, Atoms_init, set_array_charges.
  destruct (symbols2numbers 74 es) as [nums|]; simpl.
  2:{ split; [done|]. intros (? & ? & ? & _). by simplify_eq. }
  destruct (mapR (position_row 74) ps) as [pos|]; simpl.
  2:{ split; [done|]. intros (? & ? & _ & ? & _). by simplify_eq. }
  case_bool_decide as Hlen; simpl.
  2:{ split; [done|]. intros (? & ? & ? & ? & ? & _). by simplify_eq. }
  case_bool_decide as Hcs; simpl.
  2:{ split; [done|]. intros (? & ? & ? & ? & _ & ? & _). by simplify_eq. }
  split.
  - intros ?. simplify_eq. by exists nums, pos.
  - intros (? & ? & ? & ? & _ & _ & ->). by simplify_eq.
Qed.

Lemma create_atoms_Err (es : list string) (ps : list (list string))
    (m : gmap string value) (cs : list float) (e : exn) :
  create_atoms es ps m cs = Err e →
  e = Raise KeyError 74 ∨ e = Raise ValueError 74 ∨ e = Raise ValueError 76.
Proof.
  unfold create_atoms, Atoms_init, set_array_charges.
  destruct (symbols2numbers 74 es) as [nums|e1] eqn:H1; simpl.
  2:{ intros ?. simplify_eq. apply mapR_Err in H1 as (i & a & _ & H).
      apply raise_if_none_Err in H as [_ ->]. by left. }
  destruct (mapR (position_row 74) ps) as [pos|e2] eqn:H2; simpl.
  2:{ intros ?. simplify_eq. apply mapR_Err in H2 as (i & a & _ & H).
      apply position_row_Err in H as ->. right. by left. }
  case_bool_decide; simpl; [|intros ?; simplify_eq; right; by left].
  case_bool_decide; simpl; [done|]. intros ?. simplify_eq. right. by right.
Qed.

(** *** XYZParser *)

(** What a successful [XYZParser(file_path)] has gone through. *)
Lemma XYZParser_init_Ok (file_path : string) (x : XYZParser) :
  XYZParser_init file_path = Ok x ↔
  ∃ lines l0 l1 rows,
    open_readlines file_path = Some lines
    ∧ lines !! 0%nat = Some l0
    ∧ py_int (Str (strip l0)) = Some (n_atoms x)
    ∧ lines !! 1%nat = Some l1
    ∧ atom_rows lines 2 (Z.to_nat (n_atoms x)) = Ok rows
    ∧ foldM convert energy_keys (dict_zip params_keys (split l1)) = Ok (params x)
    ∧ np_array_float64 59 (rows.*2) = Ok (charges x)
    ∧ elements x = rows.*1.*1
    ∧ positions x = rows.*1.*2
    ∧ create_atoms (elements x) (positions x) (params x) (charges x) = Ok (atoms x).
Proof.
  unfold XYZParser_init, read_xyz. split.
  - destruct (open_readlines file_path) as [lines|]; rsimpl; [|done].
    rewrite read_lines_eq. unfold getitem.
    destruct (lines !! 0%nat) as [l0|] eqn:H0; rsimpl; [|done].
    destruct (py_int (Str (strip l0))) as [n|] eqn:Hn; rsimpl; [|done].
    destruct (lines !! 1%nat) as [l1|] eqn:H1; rsimpl; [|done].
    destruct (atom_rows lines 2 (Z.to_nat n)) as [rows|] eqn:Hrows; rsimpl; [|done].
    destruct (foldM convert energy_keys (dict_zip params_keys (split l1)))
      as [m|] eqn:Hm; rsimpl; [|done].
    destruct (np_array_float64 59 (rows.*2)) as [cs|] eqn:Hcs; rsimpl; [|done].
    destruct (create_atoms (rows.*1.*1) (rows.*1.*2) m cs) as [a|] eqn:Ha; rsimpl; [|done].
    intros ?. simplify_eq. exists lines, l0, l1, rows. by split_and!.
  - intros (lines & l0 & l1 & rows & -> & H0 & Hn & H1 & Hrows & Hm & Hcs & He & Hp & Ha).
    rsimpl. rewrite read_lines_eq. unfold getitem. rewrite H0. rsimpl.
    rewrite Hn. rsimpl. rewrite H1. rsimpl. rewrite Hrows. rsimpl.
    rewrite Hm. rsimpl. rewrite Hcs. rsimpl.
    rewrite <- He, <- Hp, Ha. rsimpl. by destruct x.
Qed.

(** The molecule is rebuilt from the attributes of the parser. *)
Lemma XYZParser_init_atoms (file_path : string) (x : XYZParser) :
  XYZParser_init file_path = Ok x →
  create_atoms (elements x) (positions x) (params x) (charges x) = Ok (atoms x).
Proof. intros H%XYZParser_init_Ok. by destruct H as (? & ? & ? & ? & ? & ? & ? & ? & ? & ? & ? & ? & ? & ?). Qed.

(** [XYZParser(file_path)] stage by stage, once the file is read. *)
Lemma XYZParser_init_eq (file_path : string) (lines : list string) :
  open_readlines file_path = Some lines →
  XYZParser_init file_path =
    l0 ← getitem 45 lines 0;
    n ← raise_if_none ValueError 45 (py_int (Str (strip l0)));
    l1 ← getitem 46 lines 1;
    rows ← atom_rows lines 2 (Z.to_nat n);
    params ← foldM convert energy_keys (dict_zip params_keys (split l1));
    charges ← np_array_float64 59 (rows.*2);
    atoms ← create_atoms (rows.*1.*1) (rows.*1.*2) params charges;
    Ok (mkXYZParser n params (rows.*1.*1) (rows.*1.*2) charges atoms).
Proof.
  intros Hopen. unfold XYZParser_init, read_xyz. rewrite Hopen. rsimpl.
  rewrite read_lines_eq.
  destruct (getitem 45 lines 0) as [l0|]; rsimpl; [|done].
  destruct (py_int (Str (strip l0))) as [n|]; rsimpl; [|done].
  destruct (getitem 46 lines 1) as [l1|]; rsimpl; [|done].
  destruct (atom_rows lines 2 (Z.to_nat n)) as [rows|]; rsimpl; [|done].
  destruct (foldM convert energy_keys (dict_zip params_keys (split l1)))
    as [m|]; rsimpl; [|done].
  by destruct (np_array_float64 59 (rows.*2)) as [cs|].
Qed.

Lemma not_Ok_is_Err {A} (r : result A) : ¬ is_Ok r → is_Err r.
Proof. destruct r as [a|e]; intros H; [destruct H; by exists a | by exists e]. Qed.

Lemma XYZParser_init_info (file_path : string) (x : XYZParser) :
  XYZParser_init file_path = Ok x →
  info (atoms x) = params x ∧ arr_charges (atoms x) = Some (charges x).
Proof.
  intros H%XYZParser_init_atoms.
  apply create_atoms_Ok in H as (nums & pos & _ & _ & _ & _ & ->). done.
Qed.

(** The dictionary after line 58, read off the tokens of line 1. *)
Lemma params_spec (l1 : string) (m : gmap string value) :
  foldM convert energy_keys (dict_zip params_keys (split l1)) = Ok m →
  (∀ i k, params_keys !! i = Some k → k ∈ energy_keys →
     ∃ tok h, split l1 !! i = Some tok ∧ py_float (Str tok) = Some h
              ∧ m !! k = Some (Float (h * HARTREE_TO_EV)%float))
  ∧ (∀ i k, params_keys !! i = Some k → k ∉ energy_keys →
       m !! k = Str <$> split l1 !! i)
  ∧ dom m = list_to_set (take (length (split l1)) params_keys)
  ∧ (16 ≤ length (split l1))%nat.
Proof.
  intros H. apply convert_loop_Ok in H as (Hin & Hout & Hdom); [|apply energy_keys_NoDup].
  assert (Henergy : ∀ i k, params_keys !! i = Some k → k ∈ energy_keys →
     ∃ tok h, split l1 !! i = Some tok ∧ py_float (Str tok) = Some h
              ∧ m !! k = Some (Float (h * HARTREE_TO_EV)%float)).
  { intros i k Hi Hk. destruct (Hin k Hk) as (v & h & Hv & Hh & Hm).
    rewrite (dict_zip_lookup _ _ i) in Hv by (apply params_keys_NoDup || done).
    destruct (split l1 !! i) as [tok|]; simplify_eq/=. by exists tok, h. }
  split_and!; [done| | |].
  - intros i k Hi Hk. rewrite Hout by done.
    apply dict_zip_lookup; [apply params_keys_NoDup | done].
  - by rewrite Hdom, dict_zip_dom.
  - destruct (Henergy 15%nat "G") as (tok & _ & Htok & _); [done| |].
    + apply (bool_decide_unpack _). by vm_compute.
    + apply lookup_lt_Some in Htok. lia.
Qed.

(** The rows of a parsed record, atom by atom. *)
Lemma XYZParser_init_rows (file_path : string) (lines : list string) (x : XYZParser) :
  open_readlines file_path = Some lines →
  XYZParser_init file_path = Ok x →
  length (elements x) = Z.to_nat (n_atoms x)
  ∧ length (positions x) = Z.to_nat (n_atoms x)
  ∧ length (charges x) = Z.to_nat (n_atoms x)
  ∧ length (numbers (atoms x)) = Z.to_nat (n_atoms x)
  ∧ length (arr_positions (atoms x)) = Z.to_nat (n_atoms x)
  ∧ ∀ i, (i < Z.to_nat (n_atoms x))%nat →
      ∃ l e tx ty tz c q z fx fy fz,
        lines !! (2 + i)%nat = Some l
        ∧ take 5 (split (replace_tab l)) = [e; tx; ty; tz; c]
        ∧ elements x !! i = Some e
        ∧ positions x !! i = Some [tx; ty; tz]
        ∧ np_float64 c = Some q ∧ charges x !! i = Some q
        ∧ atomic_numbers e = Some z ∧ numbers (atoms x) !! i = Some z
        ∧ np_float64 tx = Some fx ∧ np_float64 ty = Some fy ∧ np_float64 tz = Some fz
        ∧ arr_positions (atoms x) !! i = Some (fx, fy, fz).
Proof.
  intros Hopen H. apply XYZParser_init_Ok in H
    as (lines' & l0 & l1 & rows & Hopen' & H0 & Hn & H1 & Hrows & Hm & Hcs & He & Hp & Ha).
  rewrite Hopen in Hopen'. injection Hopen' as <-.
  apply atom_rows_Ok in Hrows as [Hlen Hrows].
  apply mapR_Ok in Hcs.
  apply create_atoms_Ok in Ha as (nums & pos & Hnums & Hpos & Hlp & Hlc & Ha).
  apply mapR_Ok in Hnums, Hpos. rewrite Ha. simpl.
  pose proof (Forall2_length _ _ _ Hcs) as Hl1.
  pose proof (Forall2_length _ _ _ Hnums) as Hl2.
  pose proof (Forall2_length _ _ _ Hpos) as Hl3.
  rewrite He in *. rewrite Hp in *. rewrite !length_fmap in *.
  unfold row in *. split_and!; try congruence.
  intros i Hi. destruct (Hrows i Hi) as (l & r & Hl & Hr & Hri).
  apply atom_row_Ok in Hr as (e & tx & ty & tz & c & Htok & ->).
  destruct (Forall2_lookup_l _ _ _ i c Hcs) as (q & Hq & Hcq).
  { by rewrite list_lookup_fmap, Hri. }
  apply raise_if_none_Ok in Hcq.
  destruct (Forall2_lookup_l _ _ _ i e Hnums) as (z & Hz & Hez).
  { by rewrite !list_lookup_fmap, Hri. }
  apply raise_if_none_Ok in Hez.
  destruct (Forall2_lookup_l _ _ _ i [tx; ty; tz] Hpos) as ([[fx fy] fz] & Hf & Hrow).
  { by rewrite !list_lookup_fmap, Hri. }
  apply position_row_Ok in Hrow as (tx' & ty' & tz' & ? & Hfx & Hfy & Hfz).
  simplify_eq/=.
  exists l, e, tx', ty', tz', c, q, z, fx, fy, fz.
  rewrite !list_lookup_fmap, Hri. by split_and!.
Qed.

(** *** Records that agree where the parser looks *)

Lemma XYZParser_init_cong (file_path file_path' : string) (lines lines' : list string) :
  open_readlines file_path = Some lines →
  open_readlines file_path' = Some lines' →
  lines !! 0%nat = lines' !! 0%nat →
  lines !! 1%nat = lines' !! 1%nat →
  (∀ l0 n i, lines !! 0%nat = Some l0 → py_int (Str (strip l0)) = Some n →
     (i < Z.to_nat n)%nat →
     (atom_row <$> lines !! (2 + i)%nat) = (atom_row <$> lines' !! (2 + i)%nat)) →
  XYZParser_init file_path = XYZParser_init file_path'.
Proof.
  intros Hopen Hopen' H0 H1 Hrows.
  rewrite (XYZParser_init_eq _ _ Hopen), (XYZParser_init_eq _ _ Hopen').
  unfold getitem. rewrite <- H0, <- H1.
  destruct (lines !! 0%nat) as [l0|] eqn:Hl0; rsimpl; [|done].
  destruct (py_int (Str (strip l0))) as [n|] eqn:Hn; rsimpl; [|done].
  destruct (lines !! 1%nat) as [l1|]; rsimpl; [|done].
  rewrite (atom_rows_ext lines lines'); [done|].
  intros i Hi. by apply (Hrows l0 n).
Qed.

Lemma split_go_replace_tab (s : string) :
  ∀ word, split_go word (replace_tab s) = split_go word s.
Proof.
  induction s as [|c s IH]; intros word; simpl; [done|].
  destruct (Ascii.eqb c TAB) eqn:Hc.
  - apply Ascii.eqb_eq in Hc as ->. simpl. by rewrite IH.
  - destruct (isspace c); by rewrite IH.
Qed.

(** Replacing the tabs does not change the tokens: a tab is white space. *)
Lemma split_replace_tab (s : string) : split (replace_tab s) = split s.
Proof. apply split_go_replace_tab. Qed.

Lemma energy_keys_index (k : string) :
  k ∈ energy_keys → ∃ i, params_keys !! i = Some k.
Proof.
  unfold energy_keys. intros Hk.
  repeat (apply elem_of_cons in Hk as [->|Hk];
          [apply list_elem_of_lookup_1, (bool_decide_unpack _); by vm_compute|]).
  by apply elem_of_nil in Hk.
Qed.

(** *** QM9Parser and the script *)

Lemma QM9Parser_step_eq (file_path : string) (self : QM9Parser) :
  QM9Parser_step file_path self =
    x ← XYZParser_init file_path;
    Ok (mkQM9Parser (list_atoms self ++ [atoms x]) (Some x)).
Proof.
  unfold QM9Parser_step.
  destruct (XYZParser_init file_path) as [x|] eqn:Hx; rsimpl; [|done].
  rewrite (XYZParser_init_atoms _ _ Hx). rsimpl. by destruct x.
Qed.

Lemma QM9Parser_loop (file_paths : list string) :
  ∀ self : QM9Parser,
    (list_atoms <$> foldM QM9Parser_step file_paths self)
    = ((λ l, list_atoms self ++ l) <$>
         mapR (λ p, atoms <$> XYZParser_init p) file_paths).
Proof.
  induction file_paths as [|p file_paths IH]; intros self; cbn [foldM mapR].
  - rsimpl. by rewrite app_nil_r.
  - rewrite QM9Parser_step_eq.
    destruct (XYZParser_init p) as [x|]; rsimpl; [|done].
    rewrite IH. cbn [list_atoms].
    destruct (mapR _ file_paths) as [l|]; rsimpl; [|done].
    by rewrite <- app_assoc.
Qed.

Lemma mapR_app_Err {A B} (f : A → result B) (before after : list A) (bad : A) (e : exn) :
  Forall (λ a, is_Ok (f a)) before → f bad = Err e →
  mapR f (before ++ bad :: after) = Err e.
Proof.
  intros Hbefore Hbad. induction Hbefore as [|a before [b Hb] _ IH]; simpl.
  - by rewrite Hbad.
  - by rewrite Hb, IH.
Qed.

(** An atom line is missing when the record has fewer than [n] of them. *)
Lemma line_missing_length (lines : list string) (n : Z) :
  line_missing lines n ↔ (length lines < 2 + Z.to_nat n)%nat ∧ 0 < n.
Proof.
  unfold line_missing. split.
  - intros (i & Hi & Hl). apply lookup_ge_None in Hl. lia.
  - intros [Hlen Hn]. exists (Z.to_nat n - 1)%nat. split; [lia|].
    apply lookup_ge_None. lia.
Qed.

(** ** The properties of the parser *)

(** *** The property dictionary *)

(** C2 (as the code has it): a parsed record has at least 16 tokens on
    line 1 and its dictionary has exactly the canonical keys that line 1
    gives a token to, the first [min 17 k] keys for [k] tokens: all 17 keys
    when there are 17 tokens or more, and every key but "Cv" when there are
    16.  The molecule's [info] is this dictionary. *)
Theorem properties_keys (file_path : string) (lines : list string) (l1 : string)
    (x : XYZParser) :
  open_readlines file_path = Some lines →
  lines !! 1%nat = Some l1 →
  XYZParser_init file_path = Ok x →
  (16 ≤ length (split l1))%nat
  ∧ dom (params x) = list_to_set (take (length (split l1)) params_keys)
  ∧ ((17 ≤ length (split l1))%nat → dom (params x) = list_to_set params_keys)
  ∧ (length (split l1) = 16%nat →
       ("Cv" ∉ dom (params x)) ∧ (∀ k, k ∈ params_keys → k ≠ "Cv" → k ∈ dom (params x)))
  ∧ info (atoms x) = params x.
Proof.
  intros Hopen H1 H. pose proof (XYZParser_init_info _ _ H) as [Hinfo _].
  apply XYZParser_init_Ok in H
    as (lines' & l0 & l1' & rows & Hopen' & _ & _ & H1' & _ & Hm & _).
  simplify_eq. apply params_spec in Hm as (_ & _ & Hdom & Hlen).
  split_and!; [done..| | |done].
  - intros H17. rewrite Hdom. by rewrite take_ge.
  - intros H16. rewrite Hdom, H16. split.
    + apply (bool_decide_unpack _). by vm_compute.
    + intros k Hk Hne. rewrite elem_of_list_to_set.
      change params_keys with (take 16 params_keys ++ ["Cv"]) in Hk.
      apply elem_of_app in Hk as [Hk|Hk]; [done|].
      by apply list_elem_of_singleton in Hk.
Qed.

(** C3: in a parsed record, the value of each of the eight energy keys is
    the float that the token at the key's position on line 1 denotes, times
    27.2114. *)
Theorem energy_converted (file_path : string) (lines : list string) (l1 : string)
    (x : XYZParser) (key : string) (i : nat) :
  open_readlines file_path = Some lines →
  lines !! 1%nat = Some l1 →
  XYZParser_init file_path = Ok x →
  key ∈ ["homo"; "lumo"; "gap"; "zpve"; "U0"; "U"; "H"; "G"] →
  params_keys !! i = Some key →
  ∃ tok h,
    split l1 !! i = Some tok
    ∧ py_float (Str tok) = Some h
    ∧ params x !! key = Some (Float (h * HARTREE_TO_EV)%float)
    ∧ info (atoms x) !! key = Some (Float (h * HARTREE_TO_EV)%float).
Proof.
  intros Hopen H1 H Hkey Hi. pose proof (XYZParser_init_info _ _ H) as [Hinfo _].
  apply XYZParser_init_Ok in H
    as (lines' & l0 & l1' & rows & Hopen' & _ & _ & H1' & _ & Hm & _).
  simplify_eq. apply params_spec in Hm as (Henergy & _).
  destruct (Henergy i key Hi Hkey) as (tok & h & Htok & Hh & Hv).
  exists tok, h. by rewrite Hinfo.
Qed.

(** C7: in a parsed record, the values of db, id, A, B, C, mu, alpha, r2
    and Cv are the tokens at their positions on line 1, as strings; for Cv
    this is said of a record that has its 17th token, as every record of
    the layout has. *)
Theorem strings_pass_through (file_path : string) (lines : list string) (l1 : string)
    (x : XYZParser) (key : string) (i : nat) :
  open_readlines file_path = Some lines →
  lines !! 1%nat = Some l1 →
  XYZParser_init file_path = Ok x →
  (key = "Cv" → (17 ≤ length (split l1))%nat) →
  key ∈ ["db"; "id"; "A"; "B"; "C"; "mu"; "alpha"; "r2"; "Cv"] →
  params_keys !! i = Some key →
  ∃ tok,
    split l1 !! i = Some tok
    ∧ params x !! key = Some (Str tok)
    ∧ info (atoms x) !! key = Some (Str tok).
Proof.
  intros Hopen H1 H H17 Hkey Hi. pose proof (XYZParser_init_info _ _ H) as [Hinfo _].
  apply XYZParser_init_Ok in H
    as (lines' & l0 & l1' & rows & Hopen' & _ & _ & H1' & _ & Hm & _).
  simplify_eq. apply params_spec in Hm as (_ & Hother & _ & H16).
  assert (Hlt : (i < length (split l1))%nat).
  { pose proof (lookup_lt_Some _ _ _ Hi) as Hi17.
    change (length params_keys) with 17%nat in Hi17.
    destruct (decide (i = 16%nat)) as [->|]; [|lia].
    injection Hi as <-. specialize (H17 eq_refl). lia. }
  destruct (lookup_lt_is_Some_2 _ _ Hlt) as [tok Htok].
  exists tok. rewrite Hinfo, (Hother i key Hi), Htok; [done|].
  repeat (apply elem_of_cons in Hkey as [->|Hkey];
          [apply (bool_decide_unpack _); by vm_compute|]).
  by apply elem_of_nil in Hkey.
Qed.

(** *** The atoms *)

(** X13: in a parsed record, [n_atoms] is the integer on line 0; the
    elements, positions and charges of the parser and the numbers and
    positions of the molecule all have [max 0 n_atoms] entries, that is
    [n_atoms] whenever it is not negative; and the i-th of each comes from
    the first five tokens of the i-th atom line: the symbol and its atomic
    number from token 0, the position from tokens 1-3, the charge from
    token 4. *)
Theorem atoms_aligned (file_path : string) (lines : list string) (x : XYZParser) :
  open_readlines file_path = Some lines →
  XYZParser_init file_path = Ok x →
  (∃ l0, lines !! 0%nat = Some l0 ∧ py_int (Str (strip l0)) = Some (n_atoms x))
  ∧ length (elements x) = Z.to_nat (n_atoms x)
  ∧ length (positions x) = Z.to_nat (n_atoms x)
  ∧ length (charges x) = Z.to_nat (n_atoms x)
  ∧ length (numbers (atoms x)) = Z.to_nat (n_atoms x)
  ∧ length (arr_positions (atoms x)) = Z.to_nat (n_atoms x)
  ∧ (0 ≤ n_atoms x → Z.of_nat (length (elements x)) = n_atoms x)
  ∧ arr_charges (atoms x) = Some (charges x)
  ∧ ∀ i, (i < Z.to_nat (n_atoms x))%nat →
      ∃ l e tx ty tz c q z fx fy fz,
        lines !! (2 + i)%nat = Some l
        ∧ take 5 (split (replace_tab l)) = [e; tx; ty; tz; c]
        ∧ elements x !! i = Some e
        ∧ positions x !! i = Some [tx; ty; tz]
        ∧ np_float64 c = Some q ∧ charges x !! i = Some q
        ∧ atomic_numbers e = Some z ∧ numbers (atoms x) !! i = Some z
        ∧ np_float64 tx = Some fx ∧ np_float64 ty = Some fy ∧ np_float64 tz = Some fz
        ∧ arr_positions (atoms x) !! i = Some (fx, fy, fz).
Proof.
  intros Hopen H. pose proof (XYZParser_init_info _ _ H) as [_ Hcharges].
  destruct (XYZParser_init_rows _ _ _ Hopen H) as (He & Hp & Hc & Hnum & Hpos & Hrows).
  apply XYZParser_init_Ok in H as (lines' & l0 & _ & _ & Hopen' & Hl0 & Hn & _).
  simplify_eq. split_and!; [by exists l0 | done.. | lia | done | done].
Qed.


(** C10: two records that agree on line 0, on line 1 and on the first
    atom_count atom lines parse to the same result, molecule or exception,
    whatever follows these lines. *)
Theorem trailing_lines_ignored (file_path file_path' : string)
    (lines lines' : list string) (l0 : string) (n : Z) :
  open_readlines file_path = Some lines →
  open_readlines file_path' = Some lines' →
  lines !! 0%nat = Some l0 →
  py_int (Str (strip l0)) = Some n →
  take (2 + Z.to_nat n) lines = take (2 + Z.to_nat n) lines' →
  XYZParser_init file_path = XYZParser_init file_path'.
Proof.
  intros Hopen Hopen' H0 Hn Htake.
  assert (Hlook : ∀ j, (j < 2 + Z.to_nat n)%nat → lines !! j = lines' !! j).
  { intros j Hj. rewrite <- (lookup_take_lt lines (2 + Z.to_nat n) j) by done.
    rewrite Htake. by apply lookup_take_lt. }
  apply (XYZParser_init_cong _ _ _ _ Hopen Hopen').
  - apply Hlook. lia.
  - apply Hlook. lia.
  - intros l0' n' i Hl0' Hn' Hi. simplify_eq. rewrite Hlook; [done | lia].
Qed.

(** *** Failures *)

(** C1 (as the code has it): a record with fewer than 16 tokens on line 1
    is not parsed.  When line 0 and the atom lines are read without error,
    the exception is the KeyError or ValueError of line 58, and it is the
    KeyError of the first missing energy key when the energy tokens that
    are present are numeric. *)
Theorem too_few_tokens_rejected (file_path : string) (lines : list string) (l1 : string) :
  open_readlines file_path = Some lines →
  lines !! 1%nat = Some l1 →
  (length (split l1) < 16)%nat →
  is_Err (XYZParser_init file_path)
  ∧ (∀ l0 n, lines !! 0%nat = Some l0 → py_int (Str (strip l0)) = Some n →
       is_Ok (atom_rows lines 2 (Z.to_nat n)) →
       (XYZParser_init file_path = Err (Raise KeyError 58)
        ∨ XYZParser_init file_path = Err (Raise ValueError 58))
       ∧ ((∀ i k tok, params_keys !! i = Some k → k ∈ energy_keys →
             split l1 !! i = Some tok → is_Some (py_float (Str tok))) →
          XYZParser_init file_path = Err (Raise KeyError 58))).
Proof.
  intros Hopen H1 Hlen.
  assert (Hconv : ∀ m, foldM convert energy_keys (dict_zip params_keys (split l1)) ≠ Ok m).
  { intros m (_ & _ & _ & H16)%params_spec. lia. }
  split.
  - apply not_Ok_is_Err. intros [x Hx]. apply XYZParser_init_Ok in Hx
      as (lines' & l0 & l1' & rows & Hopen' & _ & _ & H1' & _ & Hm & _).
    simplify_eq. by apply Hconv in Hm.
  - intros l0 n H0 Hn [rows Hrows].
    rewrite (XYZParser_init_eq _ _ Hopen). unfold getitem.
    rewrite H0. rsimpl. rewrite Hn. rsimpl. rewrite H1. rsimpl. rewrite Hrows. rsimpl.
    split.
    + destruct (foldM convert energy_keys (dict_zip params_keys (split l1)))
        as [m|e] eqn:Hm; [by destruct (Hconv m)|]. rsimpl.
      apply convert_loop_Err in Hm as [-> | ->]; auto.
    + intros Hnum.
      rewrite (convert_loop_KeyError energy_keys _ "G"); [done | apply energy_keys_NoDup | | |].
      * apply (bool_decide_unpack _). by vm_compute.
      * rewrite (dict_zip_lookup _ _ 15%nat) by (apply params_keys_NoDup || done).
        rewrite lookup_ge_None_2; [done | lia].
      * intros k v Hk Hv. destruct (energy_keys_index k Hk) as [i Hi].
        rewrite (dict_zip_lookup _ _ i) in Hv by (apply params_keys_NoDup || done).
        destruct (split l1 !! i) as [tok|] eqn:Htok; simplify_eq/=.
        by apply (Hnum i k tok).
Qed.

(** C8: a record with atom count [n] in which an atom line is missing, or
    has fewer than five tokens, or has a coordinate or charge token that is
    not numeric, is not parsed: no molecule is built.  When the property
    line of the record is converted without error, so that the defect of
    the atom rows is the one to report, the exception is raised by a
    statement that reads the atom rows (lines 51-54, 59, 74, 76).  For a
    missing line or token it is an IndexError, of the loop, or of line 46
    in a record that has no line 1 either. *)
Theorem atom_row_defect_rejected (file_path : string) (lines : list string)
    (l0 : string) (n : Z) :
  open_readlines file_path = Some lines →
  lines !! 0%nat = Some l0 →
  py_int (Str (strip l0)) = Some n →
  line_missing lines n ∨ token_missing lines n ∨ token_not_numeric lines n →
  is_Err (XYZParser_init file_path)
  ∧ (line_missing lines n ∨ token_missing lines n →
       ∃ ln, XYZParser_init file_path = Err (Raise IndexError ln)
             ∧ ln ∈ [46; 51; 52; 54]%nat)
  ∧ (∀ l1, lines !! 1%nat = Some l1 →
       is_Ok (foldM convert energy_keys (dict_zip params_keys (split l1))) →
       ∃ e, XYZParser_init file_path = Err e ∧ exn_line e ∈ atom_row_lines).
Proof.
  intros Hopen H0 Hn Hdefect.
  assert (Hindex : line_missing lines n ∨ token_missing lines n →
            is_Err (atom_rows lines 2 (Z.to_nat n))).
  { intros [(i & Hi & Hl)|(i & l & Hi & Hl & Hlen)];
      apply (atom_rows_is_Err _ _ _ i Hi); by rewrite Hl. }
  assert (Herr : is_Err (XYZParser_init file_path)).
  { apply not_Ok_is_Err. intros [x Hx].
    destruct (XYZParser_init_rows _ _ _ Hopen Hx) as (_ & _ & _ & _ & _ & Hrows).
    apply XYZParser_init_Ok in Hx
      as (lines' & l0' & l1 & rows & Hopen' & H0' & Hn' & _ & Hok & _).
    simplify_eq.
    destruct Hdefect as [Hd|[Hd|(i & l & j & t & Hi & Hl & Hj & Ht & Hnum)]].
    - destruct (Hindex (or_introl Hd)) as [e He]. congruence.
    - destruct (Hindex (or_intror Hd)) as [e He]. congruence.
    - destruct (Hrows i Hi)
        as (l' & e & tx & ty & tz & c & q & z & fx & fy & fz & Hl' & Htok & _ & _
            & Hc & _ & _ & _ & Hx & Hy & Hz & _).
      simplify_eq.
      assert (Ht' : take 5 (split (replace_tab l)) !! j = Some t).
      { rewrite lookup_take_lt; [done | lia]. }
      rewrite Htok in Ht'.
      destruct j as [|[|[|[|[|j]]]]]; simplify_eq/=; try lia; congruence. }
  split_and!; [done | |].
  - intros Hd. rewrite (XYZParser_init_eq _ _ Hopen). unfold getitem.
    rewrite H0. rsimpl. rewrite Hn. rsimpl.
    destruct (lines !! 1%nat) as [l1|]; rsimpl.
    + destruct (Hindex Hd) as [e He]. rewrite He. rsimpl.
      apply atom_rows_Err in He as (ln & -> & Hln). exists ln. split; [done|].
      destruct Hln as [->|[->| ->]]; apply (bool_decide_unpack _); by vm_compute.
    + exists 46%nat. split; [done|]. apply (bool_decide_unpack _). by vm_compute.
  - intros l1 H1 [m Hm]. destruct Herr as [e He]. exists e. split; [done|].
    rewrite (XYZParser_init_eq _ _ Hopen) in He. unfold getitem in He.
    rewrite H0 in He. rsimpl in He. rewrite Hn in He. rsimpl in He.
    rewrite H1 in He. rsimpl in He.
    destruct (atom_rows lines 2 (Z.to_nat n)) as [rows|e1] eqn:Hrows; rsimpl in He.
    2:{ simplify_eq. apply atom_rows_Err in Hrows as (ln & -> & Hln). simpl.
        destruct Hln as [->|[->| ->]]; apply (bool_decide_unpack _); by vm_compute. }
    rewrite Hm in He. rsimpl in He.
    destruct (np_array_float64 59 (rows.*2)) as [cs|e2] eqn:Hcs; rsimpl in He.
    2:{ simplify_eq. apply mapR_Err in Hcs as (i & a & _ & Ha).
        apply raise_if_none_Err in Ha as [_ ->]. simpl.
        apply (bool_decide_unpack _). by vm_compute. }
    destruct (create_atoms (rows.*1.*1) (rows.*1.*2) m cs) as [a|e3] eqn:Ha;
      rsimpl in He; [done|].
    simplify_eq. apply create_atoms_Err in Ha as [->|[->| ->]]; simpl;
      apply (bool_decide_unpack _); by vm_compute.
Qed.

(** *** Batches *)

(** C9: [QM9Parser] reads the paths in order; its [list_atoms] holds, at
    each index, the molecule that [XYZParser] builds for the path at that
    index, and it raises what [XYZParser] raises on the first path that
    fails; [process_file] returns the molecule of [XYZParser] on its path,
    or raises what it raises. *)
Theorem QM9Parser_list_atoms (file_paths : list string) (file_path : string) :
  (list_atoms <$> QM9Parser_init file_paths)
  = mapR (λ p, atoms <$> XYZParser_init p) file_paths
  ∧ process_file file_path = (atoms <$> XYZParser_init file_path).
Proof.
  split.
  - unfold QM9Parser_init. rewrite QM9Parser_loop. cbn [list_atoms].
    by destruct (mapR _ file_paths).
  - unfold process_file, QM9Parser_init. cbn [foldM]. rewrite QM9Parser_step_eq.
    by destruct (XYZParser_init file_path).
Qed.

(** C4 (as the code has it): when a file of the batch is malformed, and
    the files before it are not, the script ends with the exception of that
    file while it collects the results of the pool, and writes no output
    file, whatever the other files are. *)
Theorem main_aborts_on_malformed (xyz_files before after : list string) (bad : string)
    (e : exn) (dir_exists : bool) :
  xyz_files = before ++ bad :: after →
  Forall (λ p, is_Ok (process_file p)) before →
  process_file bad = Err e →
  main xyz_files dir_exists = ([], Some e)
  ∧ written (main xyz_files dir_exists) = [].
Proof.
  intros -> Hbefore Hbad. unfold main.
  by rewrite (mapR_app_Err _ _ _ _ _ Hbefore Hbad).
Qed.

(** ** Further properties of the parser *)

(** *** Loops that succeed, and the first failure of a loop *)

Lemma mapR_is_Ok {A B} (f : A → result B) (l : list A) :
  (∀ i a, l !! i = Some a → is_Ok (f a)) → is_Ok (mapR f l).
Proof.
  induction l as [|a l IH]; intros H; simpl; [by eexists|].
  destruct (H 0%nat a eq_refl) as [b ->]. rsimpl.
  destruct IH as [bs ->]; [intros i; apply (H (S i))|]. rsimpl. by eexists.
Qed.

Lemma mapR_first_Err {A B} (f : A → result B) (l : list A) (i : nat) (a : A) (e : exn) :
  l !! i = Some a → f a = Err e →
  (∀ j a', (j < i)%nat → l !! j = Some a' → is_Ok (f a')) →
  mapR f l = Err e.
Proof.
  revert i. induction l as [|a0 l IH]; intros [|i] Hi He Hbefore; simplify_eq/=.
  - by rewrite He.
  - destruct (Hbefore 0%nat a0) as [b ->]; [lia | done |]. rsimpl.
    rewrite (IH i); [done..|]. intros j a' Hj. apply (Hbefore (S j)). lia.
Qed.

Lemma convert_loop_is_Ok (ks : list string) :
  ∀ m : gmap string value,
    NoDup ks →
    (∀ k, k ∈ ks → ∃ v, m !! k = Some v ∧ is_Some (py_float v)) →
    is_Ok (foldM convert ks m).
Proof.
  induction ks as [|k0 ks IH]; intros m Hnd Hm; cbn [foldM]; [by eexists|].
  apply NoDup_cons in Hnd as [Hk0 Hnd].
  destruct (Hm k0) as (v & Hv & x & Hx); [by left|].
  destruct (convert k0 m) as [m1|e] eqn:H1; rsimpl.
  - apply convert_Ok in H1 as (v0 & x0 & _ & _ & ->).
    apply IH; [done|]. intros k Hk.
    rewrite lookup_insert_ne by (by intros ->). apply Hm. by right.
  - apply convert_Err in H1 as [[Hnone _]|(v' & Hv' & Hx' & _)]; congruence.
Qed.

(** When every key is present, the loop can only fail on a value that is
    not numeric. *)
Lemma convert_loop_ValueError (ks : list string) :
  ∀ (m : gmap string value) (k : string) (v : value),
    NoDup ks →
    (∀ k', k' ∈ ks → is_Some (m !! k')) →
    k ∈ ks → m !! k = Some v → py_float v = None →
    foldM convert ks m = Err (Raise ValueError 58).
Proof.
  induction ks as [|k0 ks IH]; intros m k v Hnd Hall Hk Hv Hnum;
    [by apply elem_of_nil in Hk|].
  apply NoDup_cons in Hnd as [Hk0 Hnd]. cbn [foldM].
  destruct (convert k0 m) as [m1|e] eqn:H1; rsimpl.
  - apply convert_Ok in H1 as (v0 & x & Hv0 & Hx & ->).
    apply elem_of_cons in Hk as [->|Hk]; [congruence|].
    apply (IH _ k v); [done| |done| |done].
    + intros k' Hk'. rewrite lookup_insert_ne by (by intros ->). apply Hall. by right.
    + rewrite lookup_insert_ne; [done|]. by intros ->.
  - apply convert_Err in H1 as [[Hnone _]|(? & _ & _ & ->)]; [|done].
    destruct (Hall k0) as [? ?]; [by left | congruence].
Qed.

Lemma dict_zip_present (vals : list string) (k : string) :
  (16 ≤ length vals)%nat → k ∈ energy_keys →
  ∃ i tok, params_keys !! i = Some k ∧ vals !! i = Some tok
           ∧ dict_zip params_keys vals !! k = Some (Str tok).
Proof.
  intros Hlen Hk. destruct (energy_keys_index k Hk) as [i Hi].
  assert (Hlt : (i < length vals)%nat).
  { destruct (decide (i = 16%nat)) as [->|].
    - injection Hi as <-. exfalso. revert Hk. apply (bool_decide_unpack _). by vm_compute.
    - apply lookup_lt_Some in Hi. change (length params_keys) with 17%nat in Hi. lia. }
  destruct (lookup_lt_is_Some_2 _ _ Hlt) as [tok Htok].
  exists i, tok. split_and!; [done..|].
  by rewrite (dict_zip_lookup _ _ i), Htok by (apply params_keys_NoDup || done).
Qed.

Lemma atom_rows_content (lines : list string) (a n : nat) (rows : list row) :
  atom_rows lines a n = Ok rows →
  ∀ i r, rows !! i = Some r →
    ∃ l e tx ty tz c,
      (i < n)%nat ∧ lines !! (a + i)%nat = Some l
      ∧ take 5 (split (replace_tab l)) = [e; tx; ty; tz; c]
      ∧ r = (e, [tx; ty; tz], c).
Proof.
  intros [Hlen Hrows]%atom_rows_Ok i r Hr.
  assert (Hi : (i < n)%nat).
  { pose proof (lookup_lt_Some _ _ _ Hr) as Hlt. unfold row in *. lia. }
  destruct (Hrows i Hi) as (l & r' & Hl & Hrow & Hr').
  apply atom_row_Ok in Hrow as (e & tx & ty & tz & c & Htok & ->).
  assert (Heq : Some r = Some (e, [tx; ty; tz], c)).
  { transitivity (rows !! i); [symmetry; exact Hr | exact Hr']. }
  injection Heq as ->. by exists l, e, tx, ty, tz, c.
Qed.

Lemma create_atoms_Err_aligned (es : list string) (ps : list (list string))
    (m : gmap string value) (cs : list float) (e : exn) :
  length ps = length es → length cs = length es →
  create_atoms es ps m cs = Err e →
  e = Raise KeyError 74 ∨ e = Raise ValueError 74.
Proof.
  intros Hps Hcs. unfold create_atoms, Atoms_init, set_array_charges.
  destruct (symbols2numbers 74 es) as [nums|e1] eqn:H1; rsimpl.
  2:{ intros ?. simplify_eq. apply mapR_Err in H1 as (i & a & _ & H).
      apply raise_if_none_Err in H as [_ ->]. by left. }
  destruct (mapR (position_row 74) ps) as [pos|e2] eqn:H2; rsimpl.
  2:{ intros ?. simplify_eq. apply mapR_Err in H2 as (i & a & _ & H).
      apply position_row_Err in H as ->. by right. }
  apply mapR_Ok, Forall2_length in H1. apply mapR_Ok, Forall2_length in H2.
  rewrite bool_decide_true by congruence. rsimpl. cbn [numbers].
  rewrite bool_decide_true by congruence. done.
Qed.

(** *** The records that are accepted *)

(** A record is well formed for the parser when line 0 is an integer [n],
    line 1 has at least 16 tokens of which those at the positions of the
    energy keys are numeric, and each of the first [n] atom lines has five
    tokens: a known symbol and four numeric tokens. *)
Definition accepted (lines : list string) : Prop :=
  ∃ l0 n l1,
    lines !! 0%nat = Some l0
    ∧ py_int (Str (strip l0)) = Some n
    ∧ lines !! 1%nat = Some l1
    ∧ (16 ≤ length (split l1))%nat
    ∧ (∀ i k tok, params_keys !! i = Some k → k ∈ energy_keys →
         split l1 !! i = Some tok → is_Some (py_float (Str tok)))
    ∧ (∀ i, (i < Z.to_nat n)%nat →
         ∃ l e tx ty tz c,
           lines !! (2 + i)%nat = Some l
           ∧ take 5 (split (replace_tab l)) = [e; tx; ty; tz; c]
           ∧ is_Some (atomic_numbers e)
           ∧ is_Some (np_float64 tx) ∧ is_Some (np_float64 ty)
           ∧ is_Some (np_float64 tz) ∧ is_Some (np_float64 c)).

(** X1: [XYZParser] builds a molecule from a record exactly when the record
    is well formed in the sense of [accepted]; nothing else is checked. *)
Theorem XYZParser_init_accepts (file_path : string) (lines : list string) :
  open_readlines file_path = Some lines →
  is_Ok (XYZParser_init file_path) ↔ accepted lines.
Proof.
  intros Hopen. split.
  - intros [x Hx].
    destruct (XYZParser_init_rows _ _ _ Hopen Hx) as (_ & _ & _ & _ & _ & Hrows).
    apply XYZParser_init_Ok in Hx
      as (lines' & l0 & l1 & rows & Hopen' & H0 & Hn & H1 & _ & Hm & _).
    simplify_eq. apply params_spec in Hm as (Henergy & _ & _ & H16).
    exists l0, (n_atoms x), l1. split_and!; [done..| |].
    + intros i k tok Hi Hk Htok.
      destruct (Henergy i k Hi Hk) as (tok' & h & Htok' & Hh & _). simplify_eq. by exists h.
    + intros i Hi.
      destruct (Hrows i Hi) as (l & e & tx & ty & tz & c & q & z & fx & fy & fz
        & Hl & Htok & _ & _ & Hq & _ & Hz & _ & Hx & Hy & Hz' & _).
      exists l, e, tx, ty, tz, c. split_and!; by eauto.
  - intros (l0 & n & l1 & H0 & Hn & H1 & H16 & Henergy & Hatoms).
    rewrite (XYZParser_init_eq _ _ Hopen). unfold getitem.
    rewrite H0. rsimpl. rewrite Hn. rsimpl. rewrite H1. rsimpl.
    destruct (atom_rows lines 2 (Z.to_nat n)) as [rows|e] eqn:Hrows; rsimpl.
    2:{ assert (Hok : is_Ok (atom_rows lines 2 (Z.to_nat n))).
        { apply mapR_is_Ok. intros j i [-> Hi]%lookup_seq.
          destruct (Hatoms j Hi) as (l & e' & tx & ty & tz & c & Hl & Htok & _).
          unfold getitem. rewrite Hl. rsimpl. eexists. apply atom_row_Ok. eauto 10. }
        destruct Hok as [? ?]. congruence. }
    pose proof (atom_rows_content _ _ _ _ Hrows) as Hcontent.
    assert (Hrow : ∀ i r, rows !! i = Some r →
      is_Some (atomic_numbers r.1.1) ∧ is_Ok (position_row 74 r.1.2)
      ∧ is_Some (np_float64 r.2)).
    { intros i r Hr.
      destruct (Hcontent i r Hr) as (l & e & tx & ty & tz & c & Hi & Hl & Htok & ->).
      destruct (Hatoms i Hi) as (l' & e' & tx' & ty' & tz' & c' & Hl' & Htok'
        & He & [fx Hx] & [fy Hy] & [fz Hz] & Hc).
      simplify_eq. rewrite Htok in Htok'. simplify_eq. split_and!; [done| |done].
      exists (fx, fy, fz). apply position_row_Ok. by exists tx', ty', tz'. }
    destruct (convert_loop_is_Ok energy_keys (dict_zip params_keys (split l1)))
      as [m ->]; [apply energy_keys_NoDup| |].
    { intros k Hk. destruct (dict_zip_present _ k H16 Hk) as (i & tok & Hi & Htok & Hv).
      exists (Str tok). split; [done|]. by apply (Henergy i k tok). }
    rsimpl.
    destruct (mapR_is_Ok (λ s, raise_if_none ValueError 59 (np_float64 s)) (rows.*2))
      as [cs Hcs].
    { intros i c Hc. apply list_lookup_fmap_Some in Hc as (r & -> & Hr).
      destruct (Hrow i r Hr) as (_ & _ & [q ->]). by eexists. }
    unfold np_array_float64. rewrite Hcs. rsimpl.
    destruct (mapR_is_Ok (λ s, raise_if_none KeyError 74 (atomic_numbers s)) (rows.*1.*1))
      as [nums Hnums].
    { intros i c Hc. apply list_lookup_fmap_Some in Hc as (r1 & -> & Hr1).
      apply list_lookup_fmap_Some in Hr1 as (r & -> & Hr).
      destruct (Hrow i r Hr) as ([z ->] & _). by eexists. }
    destruct (mapR_is_Ok (position_row 74) (rows.*1.*2)) as [pos Hpos].
    { intros i c Hc. apply list_lookup_fmap_Some in Hc as (r1 & -> & Hr1).
      apply list_lookup_fmap_Some in Hr1 as (r & -> & Hr).
      by destruct (Hrow i r Hr) as (_ & ? & _). }
    assert (Ha : create_atoms (rows.*1.*1) (rows.*1.*2) m cs
                 = Ok (mkAtoms nums pos m (Some cs))).
    { apply create_atoms_Ok. exists nums, pos.
      apply mapR_Ok, Forall2_length in Hcs.
      pose proof (Forall2_length _ _ _ (proj1 (mapR_Ok _ _ _) Hnums)) as Hl1.
      pose proof (Forall2_length _ _ _ (proj1 (mapR_Ok _ _ _) Hpos)) as Hl2.
      rewrite !length_fmap in *. split_and!; [done | done | congruence.. | done]. }
    rewrite Ha. rsimpl. by eexists.
Qed.

(** *** The exceptions of the parser *)

(** X2: when [XYZParser] fails, either the file could not be read and
    the exception is the one of lines 42-43, or the exception is one of
    eleven: line 0 is missing or is not an integer (45), line 1 is missing
    (46), an atom line is missing or too short (51, 52, 54), an energy key
    or token is missing or not numeric (58), a charge is not numeric (59), a
    symbol is unknown or a coordinate is not numeric (74).  Line 76, which
    attaches the charges, never raises. *)
Theorem XYZParser_init_errors (file_path : string) (e : exn) :
  XYZParser_init file_path = Err e →
  (open_readlines file_path = None ∧ e = read_error file_path)
  ∨ (is_Some (open_readlines file_path)
     ∧ e ∈ [Raise IndexError 45; Raise ValueError 45;
            Raise IndexError 46; Raise IndexError 51; Raise IndexError 52;
            Raise IndexError 54; Raise KeyError 58; Raise ValueError 58;
            Raise ValueError 59; Raise KeyError 74; Raise ValueError 74]).
Proof.
  destruct (open_readlines file_path) as [lines|] eqn:Hopen.
  2:{ unfold XYZParser_init, read_xyz. rewrite Hopen. rsimpl.
      intros ?. simplify_eq. by left. }
  intros He. right. split; [by eexists|]. revert He.
  rewrite (XYZParser_init_eq _ _ Hopen). unfold getitem.
  destruct (lines !! 0%nat) as [l0|]; rsimpl; [|intros ?; simplify_eq; set_solver].
  destruct (py_int (Str (strip l0))) as [n|]; rsimpl; [|intros ?; simplify_eq; set_solver].
  destruct (lines !! 1%nat) as [l1|]; rsimpl; [|intros ?; simplify_eq; set_solver].
  destruct (atom_rows lines 2 (Z.to_nat n)) as [rows|e1] eqn:Hrows; rsimpl.
  2:{ intros ?. simplify_eq. apply atom_rows_Err in Hrows as (ln & -> & [->|[->| ->]]);
      set_solver. }
  destruct (foldM convert energy_keys (dict_zip params_keys (split l1)))
    as [m|e2] eqn:Hm; rsimpl.
  2:{ intros ?. simplify_eq. apply convert_loop_Err in Hm as [->| ->]; set_solver. }
  destruct (np_array_float64 59 (rows.*2)) as [cs|e3] eqn:Hcs; rsimpl.
  2:{ intros ?. simplify_eq. apply mapR_Err in Hcs as (i & a & _ & Ha).
      apply raise_if_none_Err in Ha as [_ ->]. set_solver. }
  destruct (create_atoms (rows.*1.*1) (rows.*1.*2) m cs) as [a|e4] eqn:Ha; rsimpl; [done|].
  intros ?. simplify_eq. apply mapR_Ok, Forall2_length in Hcs.
  apply create_atoms_Err_aligned in Ha as [->| ->]; [set_solver.. | |];
    rewrite !length_fmap in *; congruence.
Qed.

(** X4: the atom lines are read before the properties are converted.  In
    a record with lines 0 and 1, if the atom line of index [i] is the first
    that is missing or has fewer than five tokens, the exception is an
    IndexError: of line 51 when the line is missing, of line 52 when it has
    no token, of line 54 otherwise; line 1 plays no part. *)
Theorem first_bad_atom_line (file_path : string) (lines : list string)
    (l0 l1 : string) (n : Z) (i : nat) :
  open_readlines file_path = Some lines →
  lines !! 0%nat = Some l0 →
  py_int (Str (strip l0)) = Some n →
  lines !! 1%nat = Some l1 →
  (i < Z.to_nat n)%nat →
  (∀ j, (j < i)%nat →
     ∃ l, lines !! (2 + j)%nat = Some l ∧ (5 ≤ length (split (replace_tab l)))%nat) →
  match lines !! (2 + i)%nat with
  | Some l => (length (split (replace_tab l)) < 5)%nat
  | None => True
  end →
  XYZParser_init file_path
  = Err (Raise IndexError
           match lines !! (2 + i)%nat with
           | None => 51
           | Some l => if bool_decide (split (replace_tab l) = []) then 52 else 54
           end).
Proof.
  intros Hopen H0 Hn H1 Hi Hbefore Hbad.
  rewrite (XYZParser_init_eq _ _ Hopen). unfold getitem.
  rewrite H0. rsimpl. rewrite Hn. rsimpl. rewrite H1. rsimpl.
  unfold atom_rows. erewrite (mapR_first_Err _ _ i (2 + i)%nat); [done | | |].
  - by apply lookup_seq_lt.
  - unfold getitem. destruct (lines !! (2 + i)%nat) as [l|]; rsimpl; [|done].
    by apply atom_row_Err.
  - intros j k Hj [-> _]%lookup_seq. destruct (Hbefore j Hj) as (l & Hl & Hlen).
    unfold getitem. rewrite Hl. rsimpl. rewrite atom_row_tokens.
    destruct (split (replace_tab l)) as [|e [|tx [|ty [|tz [|c rest]]]]];
      simpl in Hlen; try lia. by eexists.
Qed.

(** X5: in a record whose line 0 and atom lines are read without error and
    whose line 1 has at least 16 tokens, an energy token that is not numeric
    makes the parser raise ValueError at line 58. *)
Theorem energy_not_numeric_rejected (file_path : string) (lines : list string)
    (l0 l1 : string) (n : Z) (i : nat) (key tok : string) :
  open_readlines file_path = Some lines →
  lines !! 0%nat = Some l0 →
  py_int (Str (strip l0)) = Some n →
  lines !! 1%nat = Some l1 →
  is_Ok (atom_rows lines 2 (Z.to_nat n)) →
  (16 ≤ length (split l1))%nat →
  key ∈ energy_keys →
  params_keys !! i = Some key →
  split l1 !! i = Some tok →
  py_float (Str tok) = None →
  XYZParser_init file_path = Err (Raise ValueError 58).
Proof.
  intros Hopen H0 Hn H1 [rows Hrows] H16 Hkey Hi Htok Hnum.
  rewrite (XYZParser_init_eq _ _ Hopen). unfold getitem.
  rewrite H0. rsimpl. rewrite Hn. rsimpl. rewrite H1. rsimpl. rewrite Hrows. rsimpl.
  rewrite (convert_loop_ValueError energy_keys _ key (Str tok));
    [done | apply energy_keys_NoDup | | done | | done].
  - intros k Hk. destruct (dict_zip_present _ k H16 Hk) as (? & ? & _ & _ & ->). by eexists.
  - by rewrite (dict_zip_lookup _ _ i), Htok by (apply params_keys_NoDup || done).
Qed.

Lemma dict_zip_take (keys vals : list string) :
  dict_zip keys (take (length keys) vals) = dict_zip keys vals.
Proof. unfold dict_zip. by rewrite zip_with_take_r. Qed.

(** X6: only the first 17 tokens of line 1 are read: replacing line 1 by a
    line with the same first 17 tokens changes nothing in what the parser
    returns. *)
Theorem extra_property_tokens_ignored (file_path file_path' : string)
    (lines : list string) (l1 l1' : string) :
  open_readlines file_path = Some lines →
  open_readlines file_path' = Some (<[1%nat := l1']> lines) →
  lines !! 1%nat = Some l1 →
  take 17 (split l1') = take 17 (split l1) →
  XYZParser_init file_path' = XYZParser_init file_path.
Proof.
  intros Hopen Hopen' H1 Htake.
  pose proof (lookup_lt_Some _ _ _ H1) as Hlt.
  rewrite (XYZParser_init_eq _ _ Hopen), (XYZParser_init_eq _ _ Hopen').
  unfold getitem. rewrite (list_lookup_insert_ne lines 1 0) by lia.
  destruct (lines !! 0%nat) as [l0|]; rsimpl; [|done].
  destruct (py_int (Str (strip l0))) as [n|]; rsimpl; [|done].
  rewrite list_lookup_insert_eq, H1 by done. rsimpl.
  rewrite (atom_rows_ext _ lines).
  2:{ intros i _. by rewrite list_lookup_insert_ne by lia. }
  rewrite <- (dict_zip_take params_keys (split l1')), <- (dict_zip_take params_keys (split l1)).
  change (length params_keys) with 17%nat. by rewrite Htake.
Qed.

(** X7: line 51 has no effect on what the loop body appends: the tokens of
    the line with its tabs replaced are the tokens of the line. *)
Theorem tab_replacement_is_redundant (i : nat) (lines es : list string)
    (ps : list (list string)) (cs : list string) :
  atom_line i (lines, es, ps, cs) =
    l ← getitem 51 lines i;
    e ← getitem 52 (split l) 0;
    c ← getitem 54 (split l) 4;
    Ok (<[i := replace_tab l]> lines, es ++ [e], ps ++ [slice 1 4 (split l)], cs ++ [c]).
Proof.
  rewrite atom_line_eq. unfold atom_row, getitem.
  destruct (lines !! i) as [l|]; rsimpl; [|done].
  rewrite split_replace_tab.
  destruct (split l !! 0%nat) as [e|]; rsimpl; [|done].
  by destruct (split l !! 4%nat) as [c|].
Qed.

(** *** The conversions of the atom rows *)

(** The first five tokens of the atom line of index [i]. *)
Definition atom_tokens (lines : list string) (i : nat) (e tx ty tz c : string) : Prop :=
  ∃ l, lines !! (2 + i)%nat = Some l
       ∧ take 5 (split (replace_tab l)) = [e; tx; ty; tz; c].

Definition bad_charge (lines : list string) (n : Z) : Prop :=
  ∃ i e tx ty tz c, (i < Z.to_nat n)%nat ∧ atom_tokens lines i e tx ty tz c
                    ∧ np_float64 c = None.

Definition bad_symbol (lines : list string) (n : Z) : Prop :=
  ∃ i e tx ty tz c, (i < Z.to_nat n)%nat ∧ atom_tokens lines i e tx ty tz c
                    ∧ atomic_numbers e = None.

Definition bad_coordinate (lines : list string) (n : Z) : Prop :=
  ∃ i e tx ty tz c, (i < Z.to_nat n)%nat ∧ atom_tokens lines i e tx ty tz c
                    ∧ (np_float64 tx = None ∨ np_float64 ty = None ∨ np_float64 tz = None).

Lemma atom_rows_of_tokens (lines : list string) (n : nat) :
  (∀ i, (i < n)%nat → ∃ e tx ty tz c, atom_tokens lines i e tx ty tz c) →
  ∃ rows, atom_rows lines 2 n = Ok rows
    ∧ length rows = n
    ∧ (∀ i e tx ty tz c, (i < n)%nat → atom_tokens lines i e tx ty tz c →
         rows !! i = Some (e, [tx; ty; tz], c))
    ∧ (∀ i r, rows !! i = Some r →
         ∃ e tx ty tz c, (i < n)%nat ∧ atom_tokens lines i e tx ty tz c
                         ∧ r = (e, [tx; ty; tz], c)).
Proof.
  intros Hall.
  destruct (mapR_is_Ok (λ i, l ← getitem 51 lines i; atom_row l) (seq 2 n)) as [rows Hrows].
  { intros j i [-> Hi]%lookup_seq.
    destruct (Hall j Hi) as (e & tx & ty & tz & c & l & Hl & Htok).
    unfold getitem. rewrite Hl. rsimpl. eexists. apply atom_row_Ok. eauto 10. }
  exists rows. split; [done|].
  pose proof (atom_rows_Ok _ _ _ _ Hrows) as [Hlen Hlook].
  pose proof (atom_rows_content _ _ _ _ Hrows) as Hcontent.
  split_and!; [done| |].
  - intros i e tx ty tz c Hi (l & Hl & Htok).
    destruct (Hlook i Hi) as (l' & r & Hl' & Hrow & Hr).
    apply atom_row_Ok in Hrow as (e' & tx' & ty' & tz' & c' & Htok' & ->).
    rewrite Hl in Hl'. injection Hl' as <-. rewrite Htok in Htok'. by injection Htok' as <- <- <- <- <-.
  - intros i r Hr.
    destruct (Hcontent i r Hr) as (l & e & tx & ty & tz & c & Hi & Hl & Htok & ->).
    exists e, tx, ty, tz, c. split_and!; [done| |done]. by exists l.
Qed.

(** X8: in a record whose header is read, whose property line converts
    and whose atom lines all have five tokens, a charge that is not numeric
    raises ValueError at line 59; if all charges are numeric, an unknown
    element symbol raises KeyError at line 74; and if all symbols are known
    too, a coordinate that is not numeric raises ValueError at line 74. *)
Theorem atom_value_errors (file_path : string) (lines : list string)
    (l0 l1 : string) (n : Z) :
  open_readlines file_path = Some lines →
  lines !! 0%nat = Some l0 →
  py_int (Str (strip l0)) = Some n →
  lines !! 1%nat = Some l1 →
  is_Ok (foldM convert energy_keys (dict_zip params_keys (split l1))) →
  (∀ i, (i < Z.to_nat n)%nat → ∃ e tx ty tz c, atom_tokens lines i e tx ty tz c) →
  (bad_charge lines n → XYZParser_init file_path = Err (Raise ValueError 59))
  ∧ (¬ bad_charge lines n → bad_symbol lines n →
       XYZParser_init file_path = Err (Raise KeyError 74))
  ∧ (¬ bad_charge lines n → ¬ bad_symbol lines n → bad_coordinate lines n →
       XYZParser_init file_path = Err (Raise ValueError 74)).
Proof.
  intros Hopen H0 Hn H1 [m Hm] Hall.
  destruct (atom_rows_of_tokens _ _ Hall) as (rows & Hrows & Hlen & Hto & Hfrom).
  unfold row in *.
  rewrite (XYZParser_init_eq _ _ Hopen). unfold getitem.
  rewrite H0. rsimpl. rewrite Hn. rsimpl. rewrite H1. rsimpl. rewrite Hrows. rsimpl.
  rewrite Hm. rsimpl.
  assert (Hcharges : ¬ bad_charge lines n → is_Ok (np_array_float64 59 (rows.*2))).
  { intros Hgood. apply mapR_is_Ok. intros i c Hc.
    apply list_lookup_fmap_Some in Hc as (r & -> & Hr).
    destruct (Hfrom i r Hr) as (e & tx & ty & tz & c & Hi & Htok & ->). simpl.
    destruct (np_float64 c) as [q|] eqn:Hq; [by eexists|].
    destruct Hgood. by exists i, e, tx, ty, tz, c. }
  split_and!.
  - intros (i & e & tx & ty & tz & c & Hi & Htok & Hc).
    destruct (mapR_is_Err (λ s, raise_if_none ValueError 59 (np_float64 s)) (rows.*2) i c)
      as [e1 He1].
    { by rewrite list_lookup_fmap, (Hto i e tx ty tz c Hi Htok). }
    { rewrite Hc. by eexists. }
    unfold np_array_float64. rewrite He1. rsimpl.
    apply mapR_Err in He1 as (? & ? & _ & [_ ->]%raise_if_none_Err). done.
  - intros Hgood (i & e & tx & ty & tz & c & Hi & Htok & He).
    destruct (Hcharges Hgood) as [cs ->]. rsimpl.
    destruct (mapR_is_Err (λ s, raise_if_none KeyError 74 (atomic_numbers s)) (rows.*1.*1) i e)
      as [e1 He1].
    { by rewrite !list_lookup_fmap, (Hto i e tx ty tz c Hi Htok). }
    { rewrite He. by eexists. }
    unfold create_atoms, Atoms_init, symbols2numbers. rewrite He1. rsimpl.
    apply mapR_Err in He1 as (? & ? & _ & [_ ->]%raise_if_none_Err). done.
  - intros Hgood Hsym (i & e & tx & ty & tz & c & Hi & Htok & Hxyz).
    destruct (Hcharges Hgood) as [cs ->]. rsimpl.
    destruct (mapR_is_Ok (λ s, raise_if_none KeyError 74 (atomic_numbers s)) (rows.*1.*1))
      as [nums Hnums].
    { intros j s Hs. apply list_lookup_fmap_Some in Hs as (r1 & -> & Hr1).
      apply list_lookup_fmap_Some in Hr1 as (r & -> & Hr).
      destruct (Hfrom j r Hr) as (e' & tx' & ty' & tz' & c' & Hj & Htok' & ->). simpl.
      destruct (atomic_numbers e') as [z|] eqn:Hz; [by eexists|].
      destruct Hsym. by exists j, e', tx', ty', tz', c'. }
    destruct (mapR_is_Err (position_row 74) (rows.*1.*2) i [tx; ty; tz]) as [e1 He1].
    { by rewrite !list_lookup_fmap, (Hto i e tx ty tz c Hi Htok). }
    { destruct (position_row 74 [tx; ty; tz]) as [[[fx fy] fz]|e2] eqn:Hrow; [|by eexists].
      apply position_row_Ok in Hrow as (? & ? & ? & ? & ? & ? & ?). simplify_eq/=.
      destruct Hxyz as [?|[?|?]]; congruence. }
    unfold create_atoms, Atoms_init, symbols2numbers. rewrite Hnums. rsimpl.
    rewrite He1. rsimpl.
    apply mapR_Err in He1 as (? & ? & _ & ->%position_row_Err). done.
Qed.

(** *** The script *)

Lemma process_file_eq (file_path : string) :
  process_file file_path = (atoms <$> XYZParser_init file_path).
Proof.
  unfold process_file, QM9Parser_init. cbn [foldM]. rewrite QM9Parser_step_eq.
  by destruct (XYZParser_init file_path).
Qed.

(** The "id" of a molecule is the second token of line 1. *)
Lemma process_file_id (file_path : string) (a : Atoms) :
  process_file file_path = Ok a →
  ∃ lines l1 tok, open_readlines file_path = Some lines ∧ lines !! 1%nat = Some l1
                  ∧ split l1 !! 1%nat = Some tok ∧ info a !! "id" = Some (Str tok).
Proof.
  rewrite process_file_eq.
  destruct (XYZParser_init file_path) as [x|] eqn:Hx; [|done]. intros [= <-].
  destruct (XYZParser_init_info _ _ Hx) as [-> _].
  apply XYZParser_init_Ok in Hx
    as (lines & l0 & l1 & rows & Hopen & _ & _ & H1 & _ & Hm & _).
  apply params_spec in Hm as (_ & Hother & _ & H16).
  destruct (lookup_lt_is_Some_2 (split l1) 1) as [tok Htok]; [lia|].
  exists lines, l1, tok. split_and!; [done..|].
  rewrite (Hother 1%nat "id"), Htok; [done..|].
  apply (bool_decide_unpack _). by vm_compute.
Qed.

(** The file that line 108 writes for the integer [id]. *)
Definition file_name (id : Z) : string := "QM9_parsed/mol_" +:+ format_06 id +:+ ".xyz".

(** The events of lines 108-109 for one molecule. *)
Definition outputs (a : Atoms) (id : Z) : list event :=
  [Write (file_name id) a; Print ("Parsed file " +:+ format_06 id)].

Definition has_id (a : Atoms) (id : Z) : Prop :=
  ∃ v, info a !! "id" = Some v ∧ py_int v = Some id.

Lemma write_loop_all (l : list Atoms) :
  ∀ (ids : list Z) (log : list event),
    (∀ log' path a, write_error log' path a = None) →
    Forall2 has_id l ids →
    write_loop l log = (log ++ mjoin (zip_with outputs l ids), None).
Proof.
  induction l as [|a l IH]; intros ids log Hw Hids.
  - apply Forall2_nil_inv_l in Hids as ->. simpl. by rewrite app_nil_r.
  - apply Forall2_cons_inv_l in Hids as (id & ids' & (v & Hv & Hid) & Hids & ->).
    cbn [write_loop]. unfold write_atoms. rewrite Hv, Hid. cbn zeta. rewrite Hw.
    rewrite (IH ids') by done. cbn [zip_with mjoin list_join]. by rewrite <- app_assoc.
Qed.

Lemma write_loop_stop (before after : list Atoms) (a : Atoms) (v : value) :
  ∀ (ids : list Z) (log : list event),
    (∀ log' path a', write_error log' path a' = None) →
    Forall2 has_id before ids →
    info a !! "id" = Some v → py_int v = None →
    write_loop (before ++ a :: after) log
    = (log ++ mjoin (zip_with outputs before ids), Some (Raise ValueError 107)).
Proof.
  induction before as [|b before IH]; intros ids log Hw Hids Hv Hid.
  - apply Forall2_nil_inv_l in Hids as ->. simpl. unfold write_atoms.
    by rewrite Hv, Hid, app_nil_r.
  - apply Forall2_cons_inv_l in Hids as (id & ids' & (w & Hw' & Hwid) & Hids & ->).
    cbn [app write_loop]. unfold write_atoms at 1. rewrite Hw', Hwid. cbn zeta. rewrite Hw.
    rewrite (IH ids') by done. cbn [zip_with mjoin list_join]. by rewrite <- app_assoc.
Qed.

Lemma write_loop_error (l : list Atoms) :
  ∀ (log log' : list event) (e : exn),
    Forall (λ a, is_Some (info a !! "id")) l →
    write_loop l log = (log', Some e) →
    e = Raise ValueError 107
    ∨ ∃ cls log0 path a, write_error log0 path a = Some cls ∧ e = Raise cls 108.
Proof.
  induction l as [|a l IH]; intros log log' e Hl H; [discriminate H|].
  apply Forall_cons in Hl as [[v Hv] Hl]. cbn [write_loop] in H.
  unfold write_atoms in H. rewrite Hv in H.
  destruct (py_int v) as [id|]; [|injection H as _ <-; by left].
  cbn zeta in H.
  destruct (write_error log _ a) as [cls|] eqn:Hw; [|by eapply IH].
  injection H as _ <-. right. eexists cls, log, _, a. split; [exact Hw | done].
Qed.

Lemma written_outputs (l : list Atoms) :
  ∀ (ids : list Z) (log : list event) (err : option exn),
    length l = length ids →
    written (log ++ mjoin (zip_with outputs l ids), err)
    = written (log, err) ++ (file_name <$> ids).
Proof.
  unfold written. cbn [fst].
  induction l as [|a l IH]; intros [|id ids] log err Hlen; simplify_eq/=.
  - by rewrite !app_nil_r.
  - specialize (IH ids (log ++ outputs a id) err Hlen).
    rewrite <- app_assoc in IH. cbn [app outputs] in IH. cbn [outputs app].
    rewrite IH, omap_app. simpl. by rewrite <- app_assoc.
Qed.

(** What is known of an input file whose molecule gets the integer [id]:
    it is parsed, and the second token of its line 1 reads as [id]. *)
Definition parsed_with_id (file_path : string) (id : Z) : Prop :=
  is_Ok (process_file file_path)
  ∧ ∃ lines l1 tok, open_readlines file_path = Some lines ∧ lines !! 1%nat = Some l1
                    ∧ split l1 !! 1%nat = Some tok ∧ py_int (Str tok) = Some id.

Lemma parsed_with_id_atoms (files : list string) (ids : list Z) :
  Forall2 parsed_with_id files ids →
  ∃ l, mapR process_file files = Ok l ∧ Forall2 has_id l ids.
Proof.
  induction 1 as [|p id files ids [[a Ha] (lines & l1 & tok & Hopen & H1 & Htok & Hid)] _ IH].
  - by exists [].
  - destruct IH as (l & Hl & Hids). exists (a :: l). cbn [mapR]. rewrite Ha, Hl.
    split; [done|]. constructor; [|done].
    destruct (process_file_id _ _ Ha) as (lines' & l1' & tok' & Hopen' & H1' & Htok' & Hinfo).
    exists (Str tok'). split; [done|]. by simplify_eq.
Qed.

(** X9: when every file of the batch is parsed and has an integer as the
    second token of its line 1, and neither [os.makedirs] nor [write]
    raises, the script ends without exception; it creates the directory
    when it does not exist, then writes, in the order of the paths, one file
    per molecule, named from that integer. *)
Theorem main_writes_all (xyz_files : list string) (ids : list Z) (dir_exists : bool) :
  Forall2 parsed_with_id xyz_files ids →
  (dir_exists = false → makedirs_error = None) →
  (∀ log path a, write_error log path a = None) →
  ∃ l, mapR process_file xyz_files = Ok l
    ∧ main xyz_files dir_exists
      = ((if dir_exists then [] else [Makedirs "QM9_parsed"])
           ++ mjoin (zip_with outputs l ids), None)
    ∧ written (main xyz_files dir_exists) = (file_name <$> ids).
Proof.
  intros (l & Hl & Hids)%parsed_with_id_atoms Hmk Hw. exists l. split; [done|].
  unfold main. rewrite Hl.
  destruct dir_exists; [|rewrite Hmk by done];
    rewrite (write_loop_all _ ids) by done; (split; [done|]);
    by rewrite written_outputs by (by eapply Forall2_length).
Qed.

(** X10: when every file of the batch is parsed but the second token of
    line 1 of one of them is not an integer, and neither [os.makedirs] nor
    [write] raises, the script writes the files of the molecules before it
    and ends with ValueError at line 107; the molecules after it are not
    written. *)
Theorem main_stops_at_bad_id (xyz_files before after : list string) (bad : string)
    (ids : list Z) (lines : list string) (l1 tok : string) (dir_exists : bool) :
  xyz_files = before ++ bad :: after →
  Forall2 parsed_with_id before ids →
  Forall (λ p, is_Ok (process_file p)) (bad :: after) →
  open_readlines bad = Some lines → lines !! 1%nat = Some l1 →
  split l1 !! 1%nat = Some tok → py_int (Str tok) = None →
  (dir_exists = false → makedirs_error = None) →
  (∀ log path a, write_error log path a = None) →
  (main xyz_files dir_exists).2 = Some (Raise ValueError 107)
  ∧ written (main xyz_files dir_exists) = (file_name <$> ids).
Proof.
  intros -> (lb & Hlb & Hids)%parsed_with_id_atoms Hrest Hopen H1 Htok Hid Hmk Hw.
  apply Forall_cons in Hrest as [[a Ha] Hafter].
  destruct (mapR_is_Ok process_file after) as [la Hla].
  { intros i p Hp. by eapply (Forall_lookup_1 _ _ _ _ Hafter). }
  assert (Hall : mapR process_file (before ++ bad :: after) = Ok (lb ++ a :: la)).
  { apply mapR_Ok, Forall2_app; [by apply mapR_Ok|].
    constructor; [done | by apply mapR_Ok]. }
  destruct (process_file_id _ _ Ha) as (lines' & l1' & tok' & Hopen' & H1' & Htok' & Hinfo).
  assert (Hid' : py_int (Str tok') = None) by (by simplify_eq).
  unfold main. rewrite Hall.
  destruct dir_exists; [|rewrite Hmk by done];
    rewrite (write_loop_stop _ _ _ (Str tok') ids) by done; (split; [done|]);
    by rewrite written_outputs by (by eapply Forall2_length).
Qed.

(** X11: an exception that ends the script is the exception of
    [process_file] on one of the input files, or the one of [os.makedirs]
    at line 104, and then nothing has been done; or it is the ValueError of
    line 107, or an exception that [write] raises at line 108.  The lookup
    of "id" at line 107 never raises KeyError. *)
Theorem main_exceptions (xyz_files : list string) (dir_exists : bool) (e : exn) :
  (main xyz_files dir_exists).2 = Some e →
  (∃ p, p ∈ xyz_files ∧ process_file p = Err e
        ∧ (main xyz_files dir_exists).1 = [])
  ∨ (∃ cls, dir_exists = false ∧ makedirs_error = Some cls ∧ e = Raise cls 104
            ∧ (main xyz_files dir_exists).1 = [])
  ∨ e = Raise ValueError 107
  ∨ (∃ cls log path a, write_error log path a = Some cls ∧ e = Raise cls 108).
Proof.
  unfold main. destruct (mapR process_file xyz_files) as [l|e'] eqn:Hl.
  - assert (Hids : Forall (λ a, is_Some (info a !! "id")) l).
    { apply mapR_Ok in Hl. apply Forall_forall. intros a Ha.
      apply list_elem_of_lookup in Ha as [i Ha].
      destruct (Forall2_lookup_r _ _ _ _ _ Hl Ha) as (p & _ & Hp).
      destruct (process_file_id _ _ Hp) as (_ & _ & tok & _ & _ & _ & ->). by eexists. }
    assert (Hloop : ∀ log, (write_loop l log).2 = Some e →
      e = Raise ValueError 107
      ∨ ∃ cls log0 path a, write_error log0 path a = Some cls ∧ e = Raise cls 108).
    { intros log H. destruct (write_loop l log) as [log' err] eqn:Hwl.
      simpl in H. subst err. by eapply write_loop_error. }
    destruct dir_exists.
    + intros H. right. right. by apply (Hloop []).
    + destruct makedirs_error as [cls|].
      * intros [= <-]. right. left. by exists cls.
      * intros H. right. right. by apply (Hloop [Makedirs "QM9_parsed"]).
  - intros [= <-]. left. apply mapR_Err in Hl as (i & p & Hp & He).
    exists p. split_and!; [by eapply list_elem_of_lookup_2 | done | done].
Qed.

(** *** QM9Parser *)

Lemma foldM_app {A S} (f : A → S → result S) (l1 l2 : list A) (s : S) :
  foldM f (l1 ++ l2) s = foldM f l1 s ≫= foldM f l2.
Proof.
  revert s. induction l1 as [|a l1 IH]; intros s; cbn [app foldM]; [done|].
  destruct (f a s) as [s'|]; rsimpl; [apply IH | done].
Qed.

(** X12: after [QM9Parser(file_paths)], [list_atoms] has one molecule per
    path and the attributes inherited from [XYZParser] are those of the
    last path, whose molecule is the last of [list_atoms]; without paths
    these attributes do not exist. *)
Theorem QM9Parser_last (file_paths : list string) (q : QM9Parser) :
  QM9Parser_init file_paths = Ok q →
  length (list_atoms q) = length file_paths
  ∧ match last file_paths with
    | None => base q = None
    | Some p => ∃ x, XYZParser_init p = Ok x ∧ base q = Some x
                     ∧ last (list_atoms q) = Some (atoms x)
    end.
Proof.
  intros Hq. split.
  - pose proof (QM9Parser_loop file_paths (mkQM9Parser [] None)) as Hloop.
    unfold QM9Parser_init in Hq. rewrite Hq in Hloop. cbn in Hloop.
    destruct (mapR _ file_paths) as [l|] eqn:Hl; [|done]. injection Hloop as ->.
    apply mapR_Ok, Forall2_length in Hl. done.
  - unfold QM9Parser_init in Hq.
    destruct file_paths as [|p0 paths] using rev_ind; [by injection Hq as <-|].
    rewrite last_snoc. rewrite foldM_app in Hq.
    destruct (foldM QM9Parser_step paths _) as [q1|]; [|done].
    cbn in Hq. rewrite QM9Parser_step_eq in Hq.
    destruct (XYZParser_init p0) as [x|]; [|done]. injection Hq as <-.
    exists x. split_and!; [done..|]. cbn. by rewrite last_snoc.
Qed.

End Parser.

(** ** Examples

    The parser on records held in a small file system, with the library
    functions of [Builtins]. *)
Module Examples.

Definition NL : string := String (ascii_of_N 10) EmptyString.

Definition header17 : string :=
  "gdb9 1 0.0 0.0 0.0 1.5 10.0 -0.25 0.05 0.3 100.0 0.002 -40.5 -40.4 -40.4 -40.45 20.0"
  +:+ NL.

Definition header16 : string :=
  "gdb9 1 0.0 0.0 0.0 1.5 10.0 -0.25 0.05 0.3 100.0 0.002 -40.5 -40.4 -40.4 -40.45"
  +:+ NL.

Definition header15 : string :=
  "gdb9 1 0.0 0.0 0.0 1.5 10.0 -0.25 0.05 0.3 100.0 0.002 -40.5 -40.4 -40.4" +:+ NL.

Definition header_bad_homo : string :=
  "gdb9 1 0.0 0.0 0.0 1.5 10.0 n/a 0.05 0.3 100.0 0.002 -40.5 -40.4 -40.4 -40.45 20.0"
  +:+ NL.

Definition atom_C : string := "C 0.0 0.0 0.0 -0.1" +:+ NL.
Definition atom_H1 : string := "H 1.0 0.0 0.0 0.05" +:+ NL.
Definition atom_H2 : string := "H 0.0 1.0 0.0 0.05" +:+ NL.

(** The same atom as [atom_C], with tabs and a sixth token. *)
Definition atom_C_tabs : string :=
  String "C" (String TAB ("0.0" +:+ String TAB ("0.0  0.0" +:+ String TAB "-0.1 1.2e-3")))
  +:+ NL.

(** The record of the scenario of the specification. *)
Definition methane_like : list string :=
  ["3" +:+ NL; header17; atom_C; atom_H1; atom_H2].

(** The same record followed by lines that the parser never reads. *)
Definition with_trailer : list string :=
  methane_like ++ ["3151.7078 3151.7078" +:+ NL; "C" +:+ NL].

Definition sixteen : list string := ["3" +:+ NL; header16; atom_C; atom_H1; atom_H2].
Definition fifteen : list string := ["3" +:+ NL; header15; atom_C; atom_H1; atom_H2].
Definition negative : list string := ["-1" +:+ NL; header17; atom_C].
Definition four_tokens : list string :=
  ["3" +:+ NL; header17; atom_C; "H 1.0 0.0 0.0" +:+ NL; atom_H2].
Definition bad_coordinate : list string :=
  ["3" +:+ NL; header17; atom_C; "H 1.0 2.1997*^-6 0.0 0.05" +:+ NL; atom_H2].
Definition two_defects : list string :=
  ["3" +:+ NL; header_bad_homo; atom_C; "H 1.0 0.0 0.0 q" +:+ NL; atom_H2].

Definition files (path : string) : option (list string) :=
  if bool_decide (path = "QM9/ok.xyz") then Some methane_like
  else if bool_decide (path = "QM9/trailer.xyz") then Some with_trailer
  else if bool_decide (path = "QM9/tabs.xyz") then Some (<[2%nat := atom_C_tabs]> methane_like)
  else if bool_decide (path = "QM9/sixteen.xyz") then Some sixteen
  else if bool_decide (path = "QM9/fifteen.xyz") then Some fifteen
  else if bool_decide (path = "QM9/negative.xyz") then Some negative
  else if bool_decide (path = "QM9/four_tokens.xyz") then Some four_tokens
  else if bool_decide (path = "QM9/bad_coordinate.xyz") then Some bad_coordinate
  else if bool_decide (path = "QM9/two_defects.xyz") then Some two_defects
  else None.

(** A path that is not in [files] does not exist: [open] raises
    FileNotFoundError, an OSError. *)
Definition read_error (path : string) : exn := Raise OSError 42.

(** An output directory in which nothing goes wrong. *)
Definition makedirs_error : option exn_class := None.
Definition write_error (log : list event) (path : string) (a : Atoms) : option exn_class :=
  None.

Definition parse : string → result XYZParser :=
  XYZParser_init Builtins.py_int Builtins.py_float Builtins.np_float64
    Builtins.atomic_numbers files read_error.

Definition run : list string → bool → list event * option exn :=
  main Builtins.py_int Builtins.py_float Builtins.np_float64
    Builtins.atomic_numbers files read_error makedirs_error write_error.

Definition the {A} (dflt : A) (r : result A) : A :=
  match r with Ok a => a | Err _ => dflt end.

Definition no_parser : XYZParser := mkXYZParser 0 ∅ [] [] [] (mkAtoms [] [] ∅ None).

Definition ok_parsed : XYZParser := Eval vm_compute in the no_parser (parse "QM9/ok.xyz").
Definition sixteen_parsed : XYZParser :=
  Eval vm_compute in the no_parser (parse "QM9/sixteen.xyz").
Definition negative_parsed : XYZParser :=
  Eval vm_compute in the no_parser (parse "QM9/negative.xyz").

Lemma parse_ok : parse "QM9/ok.xyz" = Ok ok_parsed.
Proof. vm_compute. reflexivity. Qed.

Lemma parse_sixteen : parse "QM9/sixteen.xyz" = Ok sixteen_parsed.
Proof. vm_compute. reflexivity. Qed.

Lemma parse_negative : parse "QM9/negative.xyz" = Ok negative_parsed.
Proof. vm_compute. reflexivity. Qed.

(** The literal 27.2114 denotes [HARTREE_TO_EV]. *)
Lemma HARTREE_TO_EV_literal : Builtins.float_of_str "27.2114" = Some HARTREE_TO_EV.
Proof. vm_compute. reflexivity. Qed.

(** The scenario of the specification. *)
Lemma scenario :
  n_atoms ok_parsed = 3
  ∧ params ok_parsed !! "homo" = Some (Float (-0.25 * HARTREE_TO_EV)%float)
  ∧ params ok_parsed !! "id" = Some (Str "1")
  ∧ elements ok_parsed = ["C"; "H"; "H"]
  ∧ numbers (atoms ok_parsed) = [6; 1; 1]%nat
  ∧ Some <$> charges ok_parsed
    = Builtins.float_of_str <$> ["-0.1"; "0.05"; "0.05"].
Proof. vm_compute. by split_and!. Qed.

Definition process : string → result Atoms :=
  process_file Builtins.py_int Builtins.py_float Builtins.np_float64
    Builtins.atomic_numbers files read_error.

Lemma parse_four_tokens : parse "QM9/four_tokens.xyz" = Err (Raise IndexError 54).
Proof. vm_compute. reflexivity. Qed.

Lemma parse_bad_coordinate : parse "QM9/bad_coordinate.xyz" = Err (Raise ValueError 74).
Proof. vm_compute. reflexivity. Qed.

Lemma parse_fifteen : parse "QM9/fifteen.xyz" = Err (Raise KeyError 58).
Proof. vm_compute. reflexivity. Qed.

Lemma run_ok_alone :
  written (run ["QM9/ok.xyz"] false) = ["QM9_parsed/mol_000001.xyz"].
Proof. vm_compute. reflexivity. Qed.

(** *** C1 *)

(** C1, counterexample: a record with 16 tokens on line 1 is parsed. *)
Lemma sixteen_tokens_accepted :
  files "QM9/sixteen.xyz" = Some sixteen
  ∧ sixteen !! 1%nat = Some header16
  ∧ length (split header16) = 16%nat
  ∧ ¬ is_Err (parse "QM9/sixteen.xyz").
Proof.
  split_and!; [by vm_compute..|].
  rewrite parse_sixteen. intros [e He]. discriminate He.
Qed.

Lemma too_few_tokens_rejected_witness :
  (length (split header15) < 16)%nat ∧ is_Err (parse "QM9/fifteen.xyz").
Proof.
  assert (H15 : (length (split header15) < 16)%nat) by (vm_compute; lia).
  split; [exact H15|].
  refine (proj1 (too_few_tokens_rejected Builtins.py_int Builtins.py_float
    Builtins.np_float64 Builtins.atomic_numbers files read_error
    "QM9/fifteen.xyz" fifteen header15 _ _ H15)); vm_compute; reflexivity.
Defined.

(** *** C2 *)

(** C2, counterexample: the dictionary of a parsed record with 16 tokens has
    no key "Cv". *)
Lemma sixteen_tokens_no_Cv :
  parse "QM9/sixteen.xyz" = Ok sixteen_parsed
  ∧ params sixteen_parsed !! "Cv" = None
  ∧ dom (params sixteen_parsed) ≠ list_to_set params_keys.
Proof.
  split_and!; [exact parse_sixteen | by vm_compute |].
  intros H.
  assert (Hin : "Cv" ∈ (list_to_set params_keys : gset string)).
  { apply elem_of_list_to_set, (bool_decide_unpack _). by vm_compute. }
  rewrite <- H in Hin. apply elem_of_dom in Hin as [v Hv].
  vm_compute in Hv. discriminate Hv.
Qed.

Lemma properties_keys_witness :
  (17 ≤ length (split header17))%nat
  ∧ dom (params ok_parsed) = list_to_set params_keys.
Proof.
  assert (H17 : (17 ≤ length (split header17))%nat) by (vm_compute; lia).
  split; [exact H17|].
  refine (proj1 (proj2 (proj2 (properties_keys Builtins.py_int Builtins.py_float
    Builtins.np_float64 Builtins.atomic_numbers files read_error
    "QM9/ok.xyz" methane_like header17 ok_parsed _ _ parse_ok))) H17);
    vm_compute; reflexivity.
Defined.

(** *** C3 *)

Lemma energy_converted_witness :
  ∃ tok h,
    split header17 !! 7%nat = Some tok
    ∧ Builtins.py_float (Str tok) = Some h
    ∧ params ok_parsed !! "homo" = Some (Float (h * HARTREE_TO_EV)%float)
    ∧ info (atoms ok_parsed) !! "homo" = Some (Float (h * HARTREE_TO_EV)%float).
Proof.
  refine (energy_converted Builtins.py_int Builtins.py_float
    Builtins.np_float64 Builtins.atomic_numbers files read_error
    "QM9/ok.xyz" methane_like header17 ok_parsed "homo" 7 _ _ parse_ok _ _);
    [vm_compute; reflexivity .. | | vm_compute; reflexivity].
  apply (bool_decide_unpack _). vm_compute. exact I.
Defined.

(** *** C7 *)

Lemma strings_pass_through_witness :
  ∃ tok,
    split header17 !! 16%nat = Some tok
    ∧ params ok_parsed !! "Cv" = Some (Str tok)
    ∧ info (atoms ok_parsed) !! "Cv" = Some (Str tok).
Proof.
  refine (strings_pass_through Builtins.py_int Builtins.py_float
    Builtins.np_float64 Builtins.atomic_numbers files read_error
    "QM9/ok.xyz" methane_like header17 ok_parsed "Cv" 16 _ _ parse_ok _ _ _);
    [vm_compute; reflexivity .. | intros _; vm_compute; lia | | vm_compute; reflexivity].
  apply (bool_decide_unpack _). vm_compute. exact I.
Defined.

(** *** C5 *)

(** C5: on the record whose line 0 is -1 the parser succeeds and returns
    [n_atoms = -1] with no element, where the docstring of [read_xyz] has
    [n_atoms] the number of atoms in the molecule: the lengths are 0 and not
    the integer on line 0. *)
Lemma negative_count_parsed :
  parse "QM9/negative.xyz" = Ok negative_parsed
  ∧ n_atoms negative_parsed = -1
  ∧ length (elements negative_parsed) = 0%nat
  ∧ Z.of_nat (length (elements negative_parsed)) ≠ n_atoms negative_parsed.
Proof. split_and!; [exact parse_negative | by vm_compute..]. Qed.

Lemma atoms_aligned_witness :
  (∃ l0, methane_like !! 0%nat = Some l0
         ∧ Builtins.py_int (Str (strip l0)) = Some (n_atoms ok_parsed))
  ∧ length (elements ok_parsed) = Z.to_nat (n_atoms ok_parsed)
  ∧ arr_charges (atoms ok_parsed) = Some (charges ok_parsed).
Proof.
  destruct (atoms_aligned Builtins.py_int Builtins.py_float
    Builtins.np_float64 Builtins.atomic_numbers files read_error
    "QM9/ok.xyz" methane_like ok_parsed eq_refl parse_ok)
    as (H0 & He & _ & _ & _ & _ & _ & Hc & _).
  exact (conj H0 (conj He Hc)).
Defined.

(** *** C6 *)


(** *** C10 *)

Lemma trailing_lines_ignored_witness :
  take 5 methane_like = take 5 with_trailer
  ∧ methane_like ≠ with_trailer
  ∧ parse "QM9/ok.xyz" = parse "QM9/trailer.xyz".
Proof.
  split_and!; [vm_compute; reflexivity | intros H; discriminate H |].
  refine (trailing_lines_ignored Builtins.py_int Builtins.py_float
    Builtins.np_float64 Builtins.atomic_numbers files read_error
    "QM9/ok.xyz" "QM9/trailer.xyz" methane_like with_trailer ("3" +:+ NL) 3 _ _ _ _ _);
    vm_compute; reflexivity.
Defined.

(** *** C8 *)

Lemma bad_coordinate_not_numeric : token_not_numeric Builtins.np_float64 bad_coordinate 3.
Proof.
  exists 1%nat, ("H 1.0 2.1997*^-6 0.0 0.05" +:+ NL), 2%nat, "2.1997*^-6".
  split_and!; [vm_compute; lia | vm_compute; reflexivity | lia | lia
              | vm_compute; reflexivity | vm_compute; reflexivity].
Defined.

Lemma atom_row_defect_rejected_witness :
  token_not_numeric Builtins.np_float64 bad_coordinate 3
  ∧ is_Err (parse "QM9/bad_coordinate.xyz")
  ∧ ∃ e, parse "QM9/bad_coordinate.xyz" = Err e ∧ exn_line e ∈ atom_row_lines.
Proof.
  destruct (atom_row_defect_rejected Builtins.py_int Builtins.py_float
    Builtins.np_float64 Builtins.atomic_numbers files read_error
    "QM9/bad_coordinate.xyz" bad_coordinate ("3" +:+ NL) 3 eq_refl eq_refl eq_refl
    (or_intror (or_intror bad_coordinate_not_numeric)))
    as (Herr & _ & Hline).
  split_and!; [exact bad_coordinate_not_numeric | exact Herr |].
  apply (Hline header17); [vm_compute; reflexivity|].
  eexists. vm_compute. reflexivity.
Defined.

(** *** C4 *)

(** C4, counterexample: in a batch of two files of which one is malformed,
    no output file is written, and not the one of the file that parses. *)
Lemma batch_of_two_writes_nothing :
  is_Ok (process "QM9/ok.xyz")
  ∧ is_Err (process "QM9/four_tokens.xyz")
  ∧ run ["QM9/ok.xyz"; "QM9/four_tokens.xyz"] false = ([], Some (Raise IndexError 54))
  ∧ length (written (run ["QM9/ok.xyz"; "QM9/four_tokens.xyz"] false)) ≠ 1%nat.
Proof.
  split_and!.
  - eexists. vm_compute. reflexivity.
  - eexists. vm_compute. reflexivity.
  - vm_compute. reflexivity.
  - vm_compute. discriminate.
Qed.

Lemma main_aborts_on_malformed_witness :
  process "QM9/four_tokens.xyz" = Err (Raise IndexError 54)
  ∧ run ["QM9/ok.xyz"; "QM9/four_tokens.xyz"; "QM9/trailer.xyz"] true
    = ([], Some (Raise IndexError 54))
  ∧ written (run ["QM9/ok.xyz"; "QM9/four_tokens.xyz"; "QM9/trailer.xyz"] true) = [].
Proof.
  assert (Hbad : process "QM9/four_tokens.xyz" = Err (Raise IndexError 54))
    by (vm_compute; reflexivity).
  split; [exact Hbad|].
  refine (main_aborts_on_malformed Builtins.py_int Builtins.py_float
    Builtins.np_float64 Builtins.atomic_numbers files read_error makedirs_error write_error
    ["QM9/ok.xyz"; "QM9/four_tokens.xyz"; "QM9/trailer.xyz"]
    ["QM9/ok.xyz"] ["QM9/trailer.xyz"] "QM9/four_tokens.xyz" (Raise IndexError 54) true
    eq_refl _ Hbad).
  constructor; [|constructor]. eexists. vm_compute. reflexivity.
Defined.

End Examples.

(** ** More examples *)
Module MoreExamples.

Import Examples.

Definition header19 : string :=
  "gdb9 1 0.0 0.0 0.0 1.5 10.0 -0.25 0.05 0.3 100.0 0.002 -40.5 -40.4 -40.4 -40.45 20.0 x y"
  +:+ NL.

Definition header_id42 : string :=
  "gdb9 42 0.0 0.0 0.0 1.5 10.0 -0.25 0.05 0.3 100.0 0.002 -40.5 -40.4 -40.4 -40.45 20.0"
  +:+ NL.

Definition header_bad_id : string :=
  "gdb9 no7 0.0 0.0 0.0 1.5 10.0 -0.25 0.05 0.3 100.0 0.002 -40.5 -40.4 -40.4 -40.45 20.0"
  +:+ NL.

Definition bad_charge_record : list string :=
  ["3" +:+ NL; header17; atom_C; "H 1.0 0.0 0.0 q" +:+ NL; atom_H2].

Definition files (path : string) : option (list string) :=
  if bool_decide (path = "QM9/empty.xyz") then Some []
  else if bool_decide (path = "QM9/count_only.xyz") then Some ["0" +:+ NL]
  else if bool_decide (path = "QM9/not_a_count.xyz") then Some (("three" +:+ NL) :: tail methane_like)
  else if bool_decide (path = "QM9/extra_tokens.xyz") then Some (<[1%nat := header19]> methane_like)
  else if bool_decide (path = "QM9/bad_charge.xyz") then Some bad_charge_record
  else if bool_decide (path = "QM9/id42.xyz") then Some (<[1%nat := header_id42]> methane_like)
  else if bool_decide (path = "QM9/bad_id.xyz") then Some (<[1%nat := header_bad_id]> methane_like)
  else Examples.files path.

(** "QM9/latin1.xyz" opens but does not decode: [readlines] raises
    UnicodeDecodeError, a ValueError, at line 43; the other paths that are
    not in [files] do not exist. *)
Definition read_error (path : string) : exn :=
  if bool_decide (path = "QM9/latin1.xyz") then Raise ValueError 43 else Raise OSError 42.

(** An output directory in which the file of id 1 cannot be written. *)
Definition write_denied (log : list event) (path : string) (a : Atoms) : option exn_class :=
  if bool_decide (path = "QM9_parsed/mol_000001.xyz") then Some OSError else None.

Definition parse : string → result XYZParser :=
  XYZParser_init Builtins.py_int Builtins.py_float Builtins.np_float64
    Builtins.atomic_numbers files read_error.

Definition process : string → result Atoms :=
  process_file Builtins.py_int Builtins.py_float Builtins.np_float64
    Builtins.atomic_numbers files read_error.

Definition run : list string → bool → list event * option exn :=
  main Builtins.py_int Builtins.py_float Builtins.np_float64
    Builtins.atomic_numbers files read_error makedirs_error write_error.

Definition run_denied : list string → bool → list event * option exn :=
  main Builtins.py_int Builtins.py_float Builtins.np_float64
    Builtins.atomic_numbers files read_error makedirs_error write_denied.

Definition no_batch : QM9Parser := mkQM9Parser [] None.

Definition batch : QM9Parser :=
  Eval vm_compute in
    the no_batch (QM9Parser_init Builtins.py_int Builtins.py_float Builtins.np_float64
                    Builtins.atomic_numbers files read_error ["QM9/id42.xyz"; "QM9/ok.xyz"]).

Lemma XYZParser_init_accepts_witness :
  accepted Builtins.py_int Builtins.py_float Builtins.np_float64
    Builtins.atomic_numbers methane_like
  ∧ ¬ accepted Builtins.py_int Builtins.py_float Builtins.np_float64
        Builtins.atomic_numbers four_tokens.
Proof.
  split.
  - apply (XYZParser_init_accepts Builtins.py_int Builtins.py_float Builtins.np_float64
             Builtins.atomic_numbers Examples.files Examples.read_error "QM9/ok.xyz" methane_like eq_refl).
    eexists. exact parse_ok.
  - intros H.
    apply (XYZParser_init_accepts Builtins.py_int Builtins.py_float Builtins.np_float64
             Builtins.atomic_numbers Examples.files Examples.read_error "QM9/four_tokens.xyz" four_tokens eq_refl)
      in H as [x Hx].
    pose proof parse_four_tokens as H4. unfold Examples.parse in H4.
    rewrite H4 in Hx. discriminate Hx.
Defined.

Lemma XYZParser_init_errors_witness :
  parse "QM9/latin1.xyz" = Err (Raise ValueError 43)
  ∧ ((files "QM9/latin1.xyz" = None
      ∧ Raise ValueError 43 = read_error "QM9/latin1.xyz")
     ∨ (is_Some (files "QM9/latin1.xyz")
        ∧ Raise ValueError 43
          ∈ [Raise IndexError 45; Raise ValueError 45;
             Raise IndexError 46; Raise IndexError 51; Raise IndexError 52;
             Raise IndexError 54; Raise KeyError 58; Raise ValueError 58;
             Raise ValueError 59; Raise KeyError 74; Raise ValueError 74])).
Proof.
  assert (H : parse "QM9/latin1.xyz" = Err (Raise ValueError 43))
    by (vm_compute; reflexivity).
  split; [exact H|].
  exact (XYZParser_init_errors Builtins.py_int Builtins.py_float Builtins.np_float64
           Builtins.atomic_numbers files read_error "QM9/latin1.xyz" _ H).
Defined.

Lemma first_bad_atom_line_witness :
  Examples.parse "QM9/four_tokens.xyz" = Err (Raise IndexError 54).
Proof.
  refine (first_bad_atom_line Builtins.py_int Builtins.py_float Builtins.np_float64
            Builtins.atomic_numbers Examples.files Examples.read_error "QM9/four_tokens.xyz" four_tokens
            ("3" +:+ NL) header17 3 1 _ _ _ _ _ _ _);
    try (vm_compute; reflexivity).
  - lia.
  - intros j Hj. assert (j = 0%nat) as -> by lia. exists atom_C.
    split; [reflexivity | vm_compute; lia].
Defined.

Lemma energy_not_numeric_rejected_witness :
  Examples.parse "QM9/two_defects.xyz" = Err (Raise ValueError 58).
Proof.
  refine (energy_not_numeric_rejected Builtins.py_int Builtins.py_float Builtins.np_float64
            Builtins.atomic_numbers Examples.files Examples.read_error "QM9/two_defects.xyz" two_defects
            ("3" +:+ NL) header_bad_homo 3 7 "homo" "n/a" _ _ _ _ _ _ _ _ _ _);
    try (vm_compute; reflexivity).
  - eexists. vm_compute. reflexivity.
  - vm_compute. lia.
  - apply (bool_decide_unpack _). vm_compute. exact I.
Defined.

Lemma extra_property_tokens_ignored_witness :
  length (split header19) = 19%nat
  ∧ parse "QM9/extra_tokens.xyz" = parse "QM9/ok.xyz".
Proof.
  split; [vm_compute; reflexivity|].
  refine (extra_property_tokens_ignored Builtins.py_int Builtins.py_float
            Builtins.np_float64 Builtins.atomic_numbers files read_error
            "QM9/ok.xyz" "QM9/extra_tokens.xyz" methane_like header17 header19 _ _ _ _);
    vm_compute; reflexivity.
Defined.

Lemma bad_charge_record_tokens (i : nat) :
  (i < 3)%nat → ∃ e tx ty tz c, atom_tokens bad_charge_record i e tx ty tz c.
Proof.
  intros Hi. destruct i as [|[|[|i]]]; [..|lia].
  - exists "C", "0.0", "0.0", "0.0", "-0.1", atom_C. split; vm_compute; reflexivity.
  - exists "H", "1.0", "0.0", "0.0", "q", ("H 1.0 0.0 0.0 q" +:+ NL).
    split; vm_compute; reflexivity.
  - exists "H", "0.0", "1.0", "0.0", "0.05", atom_H2. split; vm_compute; reflexivity.
Defined.

Lemma atom_value_errors_witness :
  bad_charge Builtins.np_float64 bad_charge_record 3
  ∧ parse "QM9/bad_charge.xyz" = Err (Raise ValueError 59).
Proof.
  assert (Hbad : bad_charge Builtins.np_float64 bad_charge_record 3).
  { exists 1%nat, "H", "1.0", "0.0", "0.0", "q". split_and!; [vm_compute; lia | |].
    - exists ("H 1.0 0.0 0.0 q" +:+ NL). split; vm_compute; reflexivity.
    - vm_compute. reflexivity. }
  split; [exact Hbad|].
  refine (proj1 (atom_value_errors Builtins.py_int Builtins.py_float Builtins.np_float64
            Builtins.atomic_numbers files read_error "QM9/bad_charge.xyz" bad_charge_record
            ("3" +:+ NL) header17 3 _ _ _ _ _ _) Hbad);
    try (vm_compute; reflexivity).
  - eexists. vm_compute. reflexivity.
  - exact bad_charge_record_tokens.
Defined.

Lemma id42_parsed :
  parsed_with_id Builtins.py_int Builtins.py_float Builtins.np_float64
    Builtins.atomic_numbers files read_error "QM9/id42.xyz" 42.
Proof.
  split.
  - eexists. vm_compute. reflexivity.
  - exists (<[1%nat := header_id42]> methane_like), header_id42, "42".
    split_and!; vm_compute; reflexivity.
Defined.

Lemma ok_parsed_with_id :
  parsed_with_id Builtins.py_int Builtins.py_float Builtins.np_float64
    Builtins.atomic_numbers files read_error "QM9/ok.xyz" 1.
Proof.
  split.
  - eexists. vm_compute. reflexivity.
  - exists methane_like, header17, "1". split_and!; vm_compute; reflexivity.
Defined.

Lemma file_names_42_1 :
  file_name <$> [42; 1] = ["QM9_parsed/mol_000042.xyz"; "QM9_parsed/mol_000001.xyz"].
Proof. vm_compute. reflexivity. Qed.

Lemma main_writes_all_witness :
  written (run ["QM9/id42.xyz"; "QM9/ok.xyz"] false) = (file_name <$> [42; 1]).
Proof.
  destruct (main_writes_all Builtins.py_int Builtins.py_float Builtins.np_float64
              Builtins.atomic_numbers files read_error makedirs_error write_error
              ["QM9/id42.xyz"; "QM9/ok.xyz"] [42; 1] false)
    as (l & _ & _ & Hwritten).
  - constructor; [exact id42_parsed|]. constructor; [exact ok_parsed_with_id | constructor].
  - reflexivity.
  - reflexivity.
  - exact Hwritten.
Defined.

Lemma bad_id_parsed : is_Ok (process "QM9/bad_id.xyz") ∧ is_Ok (process "QM9/ok.xyz").
Proof. split; eexists; vm_compute; reflexivity. Qed.

Lemma main_stops_at_bad_id_witness :
  (run ["QM9/id42.xyz"; "QM9/bad_id.xyz"; "QM9/ok.xyz"] true).2 = Some (Raise ValueError 107)
  ∧ written (run ["QM9/id42.xyz"; "QM9/bad_id.xyz"; "QM9/ok.xyz"] true)
    = (file_name <$> [42]).
Proof.
  apply (main_stops_at_bad_id Builtins.py_int Builtins.py_float Builtins.np_float64
           Builtins.atomic_numbers files read_error makedirs_error write_error
           ["QM9/id42.xyz"; "QM9/bad_id.xyz"; "QM9/ok.xyz"] ["QM9/id42.xyz"] ["QM9/ok.xyz"]
           "QM9/bad_id.xyz" [42] (<[1%nat := header_bad_id]> methane_like) header_bad_id
           "no7" true eq_refl).
  - constructor; [exact id42_parsed | constructor].
  - constructor; [exact (proj1 bad_id_parsed)|].
    constructor; [exact (proj2 bad_id_parsed) | constructor].
  - vm_compute. reflexivity.
  - vm_compute. reflexivity.
  - vm_compute. reflexivity.
  - vm_compute. reflexivity.
  - reflexivity.
  - reflexivity.
Defined.

Lemma run_denied_stops :
  (run_denied ["QM9/id42.xyz"; "QM9/ok.xyz"] true).2 = Some (Raise OSError 108)
  ∧ written (run_denied ["QM9/id42.xyz"; "QM9/ok.xyz"] true) = (file_name <$> [42]).
Proof. vm_compute. split; reflexivity. Qed.

Lemma main_exceptions_witness :
  (∃ p, p ∈ ["QM9/id42.xyz"; "QM9/ok.xyz"]
        ∧ process p = Err (Raise OSError 108)
        ∧ (run_denied ["QM9/id42.xyz"; "QM9/ok.xyz"] true).1 = [])
  ∨ (∃ cls, true = false ∧ makedirs_error = Some cls ∧ Raise OSError 108 = Raise cls 104
            ∧ (run_denied ["QM9/id42.xyz"; "QM9/ok.xyz"] true).1 = [])
  ∨ Raise OSError 108 = Raise ValueError 107
  ∨ (∃ cls log path a, write_denied log path a = Some cls
                       ∧ Raise OSError 108 = Raise cls 108).
Proof.
  exact (main_exceptions Builtins.py_int Builtins.py_float Builtins.np_float64
           Builtins.atomic_numbers files read_error makedirs_error write_denied
           ["QM9/id42.xyz"; "QM9/ok.xyz"] true (Raise OSError 108) (proj1 run_denied_stops)).
Defined.

Lemma QM9Parser_last_witness :
  length (list_atoms batch) = 2%nat
  ∧ ∃ x, parse "QM9/ok.xyz" = Ok x ∧ base batch = Some x
         ∧ last (list_atoms batch) = Some (atoms x).
Proof.
  refine (QM9Parser_last Builtins.py_int Builtins.py_float Builtins.np_float64
            Builtins.atomic_numbers files read_error ["QM9/id42.xyz"; "QM9/ok.xyz"] batch _).
  vm_compute. reflexivity.
Defined.

End MoreExamples.
